(** * Drift detection utilities: a shallow embedding and its properties

    Two independent pipelines are embedded here:

    - [Auditor]: [check_azure_drift] of [scripts/Azure Inst.py], which walks
      the configured resource groups and compares every resource's region and
      tags with the baseline;
    - [Notifier]: [lambda_handler] of [scripts/root_fallback.py], which asks
      the provider for a drift detection per stack, polls for its outcome,
      and goes on to fetch the drift records of a drifted stack and to
      publish a notification for it.

    The cloud provider is an external collaborator.  It is represented by an
    interface (a type class) over an abstract provider state [World]; every
    operation may return a value or raise.  Python strings are represented by
    [string]; the only character the code inspects is ['/'], an ASCII
    character, so working on the UTF-8 bytes agrees with working on code
    points. *)

From Stdlib Require Import Strings.String Strings.Ascii Numbers.DecimalString.
From stdpp Require Import base option list strings gmap.

Local Open Scope string_scope.
Local Open Scope list_scope.

(* ===================================================================== *)
(** * Python primitives used by both scripts *)
(* ===================================================================== *)

Module Py.

(** Classes of the exceptions the scripts can meet.  Every one of them is a
    subclass of Python's [Exception]. *)
Inductive exn_class : Type :=
| ResourceNotFoundError
| ClientAuthenticationError
| KeyError
| IndexError
| AttributeError
| OtherException.

(** An exception instance: its class and the text [str(e)]. *)
Record exn : Type := Exception { exn_kind : exn_class; exn_str : string }.

Definition is_ResourceNotFoundError (e : exn) : bool :=
  match exn_kind e with ResourceNotFoundError => true | _ => false end.

Definition is_ClientAuthenticationError (e : exn) : bool :=
  match exn_kind e with ClientAuthenticationError => true | _ => false end.

(** A JSON-like Python dict with text values, in insertion order. *)
Definition dict : Type := list (string * string).

(** Logging levels of the [logging] module that the scripts use. *)
Inductive level : Type := INFO | WARNING | ERROR.

(** [c in s] for a one-character [c]. *)
Fixpoint contains (c : ascii) (s : string) : bool :=
  match s with
  | EmptyString => false
  | String a s' => if Ascii.eqb a c then true else contains c s'
  end.

(** [s.split(c)] for a one-character separator. *)
Fixpoint split (c : ascii) (s : string) : list string :=
  match s with
  | EmptyString => [EmptyString]
  | String a s' =>
      if Ascii.eqb a c then EmptyString :: split c s'
      else match split c s' with
           | [] => [String a EmptyString]
           | h :: t => String a h :: t
           end
  end.

(** [sep.join(l)]. *)
Fixpoint join (sep : string) (l : list string) : string :=
  match l with
  | [] => EmptyString
  | [x] => x
  | x :: rest => x +:+ sep +:+ join sep rest
  end.

(** [l[-2]]: the last but one element, [IndexError] on a shorter list. *)
Fixpoint getitem_neg2 (l : list string) : exn + string :=
  match l with
  | [] | [_] => inl (Exception IndexError "list index out of range")
  | [x; _] => inr x
  | _ :: rest => getitem_neg2 rest
  end.

(** [str(n)] for a natural number. *)
Definition str_nat (n : nat) : string := NilZero.string_of_uint (Nat.to_uint n).

(** [str(x)] for a value that is a text or [None]. *)
Definition str_opt (x : option string) : string :=
  match x with Some s => s | None => "None" end.

(** The line feed. *)
Definition nl : string := String "010"%char EmptyString.

(** [c * n]: a character repeated. *)
Fixpoint repeat_char (c : ascii) (n : nat) : string :=
  match n with O => EmptyString | S n' => String c (repeat_char c n') end.

(** The functions of Python's runtime that turn values into text: they
    belong to the interpreter and its [json] module, not to this
    repository. *)
Class Text : Type := {
  (** [json.dumps(l, indent=2)] for a list of dicts with text values *)
  json_dumps_indent2 : list dict -> string;
  (** [json.dumps(s)] for a text *)
  json_dumps : string -> string;
  (** [f"{l}"] for a list of texts *)
  format_list : list string -> string
}.

End Py.
Import Py.

(* ===================================================================== *)
(** * The Resource Group Auditor ([scripts/Azure Inst.py]) *)
(* ===================================================================== *)

Module Auditor.

(** The [CONFIG] dictionary.  [EXPECTED_TAGS] keeps the order of
    [dict.items()]. *)
Record Config : Type := {
  SUBSCRIPTION_ID : string;
  TARGET_REGION : string;
  RESOURCE_GROUPS : list string;
  EXPECTED_TAGS : list (string * string)
}.

Definition CONFIG : Config := {|
  SUBSCRIPTION_ID := "YOUR-SUBSCRIPTION-ID-HERE";
  TARGET_REGION := "westeurope";
  RESOURCE_GROUPS := ["rg-production-app-001"; "rg-production-db-001"];
  EXPECTED_TAGS := [("Environment", "Production")]
|}.

(** What the script reads of a fetched resource group: the attribute
    [provisioning_state].  The object may have no attribute of that name
    ([None] here); reading it then raises [AttributeError]. *)
Record ResourceGroup : Type := { provisioning_state : option string }.

(** The exception of [rg.provisioning_state] on an object without that
    attribute. *)
Definition no_provisioning_state : exn :=
  Exception AttributeError
    "'ResourceGroup' object has no attribute 'provisioning_state'".

(** What the script reads of a listed resource.  [location] and [tags] may
    be [None] in the provider's answer. *)
Record Resource : Type := {
  name : string;
  type : string;
  location : option string;
  tags : option (gmap string string)
}.

(** The provider, over its own state [World].  Listing is lazy in the
    script: the iterator yields some resources and may then raise, so the
    answer is the resources yielded and the exception, if any, that ended
    the iteration. *)
Class Provider (World : Type) : Type := {
  (** [DefaultAzureCredential()] then [ResourceManagementClient(..)] *)
  authenticate : string -> World -> World * (exn + unit);
  (** [resource_client.resource_groups.get(rg_name)] *)
  resource_groups_get : string -> World -> World * (exn + ResourceGroup);
  (** [resource_client.resources.list_by_resource_group(rg_name)] *)
  list_by_resource_group : string -> World -> World * (list Resource * option exn)
}.

(** What a run does that can be observed from outside. *)
Inductive event : Type :=
| Log (lvl : level) (msg : string)
| Print (line : string)
| GetGroup (rg_name : string)
| ListResources (rg_name : string).

(** How an iteration of the loop over the groups ends. *)
Inductive control : Type := Continue | Break.

Definition missing_finding (rg_name : string) : dict :=
  [("ResourceGroup", rg_name); ("Status", "MISSING")].

Definition unhealthy_finding (rg_name state : string) : dict :=
  [("ResourceGroup", rg_name); ("Status", "UNHEALTHY");
   ("Reason", "State is " +:+ state)].

Definition drifted_finding (resource : Resource) (drift_reasons : list string) : dict :=
  [("Resource", name resource); ("Type", type resource);
   ("Status", "DRIFTED"); ("Details", join ", " drift_reasons)].

Definition region_reason (CONFIG : Config) (resource : Resource) : string :=
  "Region: " +:+ str_opt (location resource)
    +:+ " (Expected " +:+ TARGET_REGION CONFIG +:+ ")".

Definition tag_reason (key value : string) : string :=
  "Missing Tag: " +:+ key +:+ "=" +:+ value.

(** A. Region Check: the pair is ([resource_drifted], [drift_reasons]). *)
Definition region_check (CONFIG : Config) (resource : Resource)
    (st : bool * list string) : bool * list string :=
  if bool_decide (location resource ≠ Some (TARGET_REGION CONFIG))
  then (true, st.2 ++ [region_reason CONFIG resource])
  else st.

(** B. Tag Check: one turn of the loop over [EXPECTED_TAGS.items()]. *)
Definition tag_check (current_tags : gmap string string)
    (st : bool * list string) (item : string * string) : bool * list string :=
  let '(key, value) := item in
  if bool_decide (current_tags !! key ≠ Some value)
  then (true, st.2 ++ [tag_reason key value])
  else st.

(** The body of the loop over the resources: the finding to append, if
    any. *)
Definition check_resource (CONFIG : Config) (resource : Resource) : option dict :=
  let st := region_check CONFIG resource (false, []) in
  let current_tags := default ∅ (tags resource) in
  let '(resource_drifted, drift_reasons) :=
    foldl (tag_check current_tags) st (EXPECTED_TAGS CONFIG) in
  if resource_drifted then Some (drifted_finding resource drift_reasons)
  else None.

(** [for resource in resources], on the resources the iterator yields. *)
Fixpoint resource_loop (CONFIG : Config) (resources : list Resource)
    (drift_report : list dict) : list dict :=
  match resources with
  | [] => drift_report
  | resource :: rest =>
      resource_loop CONFIG rest
        (match check_resource CONFIG resource with
         | Some finding => drift_report ++ [finding]
         | None => drift_report
         end)
  end.

(** ** The comparison rules, as the specification words them *)

(** Rule (a): the resource's location is not the target region. *)
Definition region_differs (CONFIG : Config) (resource : Resource) : Prop :=
  location resource ≠ Some (TARGET_REGION CONFIG).

(** Rule (b) for one expected tag: the resource's value for the key is not
    the configured value; a resource without the key has no value for it. *)
Definition tag_differs (resource : Resource) (item : string * string) : Prop :=
  default ∅ (tags resource) !! item.1 ≠ Some item.2.

#[export] Instance region_differs_dec CONFIG resource :
  Decision (region_differs CONFIG resource).
Proof. unfold region_differs. apply _. Defined.

#[export] Instance tag_differs_dec resource item :
  Decision (tag_differs resource item).
Proof. unfold tag_differs. apply _. Defined.

(** A resource breaks the baseline when either rule fails. *)
Definition mismatched (CONFIG : Config) (resource : Resource) : Prop :=
  region_differs CONFIG resource
  ∨ Exists (tag_differs resource) (EXPECTED_TAGS CONFIG).

#[export] Instance mismatched_dec CONFIG resource :
  Decision (mismatched CONFIG resource).
Proof. unfold mismatched. apply _. Defined.

(** All the failing reasons of a resource: the region first, then the
    expected tags in their order. *)
Definition failing_reasons (CONFIG : Config) (resource : Resource) : list string :=
  (if decide (region_differs CONFIG resource)
   then [region_reason CONFIG resource] else [])
  ++ ((λ item, tag_reason item.1 item.2)
        <$> filter (tag_differs resource) (EXPECTED_TAGS CONFIG)).

(** The finding the specification asks for: one DRIFTED finding with all
    the failing reasons when a rule fails, none otherwise. *)
Definition expected_finding (CONFIG : Config) (resource : Resource) : option dict :=
  if decide (mismatched CONFIG resource)
  then Some (drifted_finding resource (failing_reasons CONFIG resource))
  else None.

(** The same resource with other tags. *)
Definition with_tags (resource : Resource) (t : option (gmap string string)) : Resource :=
  {| name := name resource; type := type resource;
     location := location resource; tags := t |}.

(** The two outer [except] clauses, in the order they are written. *)
Definition handle_exception (rg_name : string) (e : exn) : list event * control :=
  if is_ClientAuthenticationError e
  then ([Log ERROR "Authentication rejected. Check your Subscription ID."], Break)
  else ([Log ERROR ("Unexpected error checking " +:+ rg_name +:+ ": " +:+ exn_str e)],
        Continue).

Section WithProvider.
Context {World : Type} `{Provider World} `{Text}.

(** One turn of the loop over the resource groups. *)
Definition check_group (CONFIG : Config) (rg_name : string)
    (drift_report : list dict) (w : World)
    : World * list event * list dict * control :=
  let started := [Log INFO ("Checking Resource Group: " +:+ rg_name);
                  GetGroup rg_name] in
  match resource_groups_get rg_name w with
  | (w1, inl e) =>
      if is_ResourceNotFoundError e then
        (w1,
         started ++ [Log ERROR ("Resource Group '" +:+ rg_name +:+ "' NOT FOUND.")],
         drift_report ++ [missing_finding rg_name],
         Continue)
      else
        let '(logged, c) := handle_exception rg_name e in
        (w1, started ++ logged, drift_report, c)
  | (w1, inr rg) =>
      match provisioning_state rg with
      | None =>
          let '(logged, c) := handle_exception rg_name no_provisioning_state in
          (w1, started ++ logged, drift_report, c)
      | Some state =>
          let drift_report1 :=
            if negb (String.eqb state "Succeeded")
            then drift_report ++ [unhealthy_finding rg_name state]
            else drift_report in
          match list_by_resource_group rg_name w1 with
          | (w2, (resources, raised)) =>
              let drift_report2 := resource_loop CONFIG resources drift_report1 in
              match raised with
              | None =>
                  (w2, started ++ [ListResources rg_name], drift_report2, Continue)
              | Some e =>
                  let '(logged, c) := handle_exception rg_name e in
                  (w2, started ++ [ListResources rg_name] ++ logged,
                   drift_report2, c)
              end
          end
      end
  end.

(** [for rg_name in CONFIG["RESOURCE_GROUPS"]]. *)
Fixpoint group_loop (CONFIG : Config) (groups : list string)
    (drift_report : list dict) (w : World) : World * list event * list dict :=
  match groups with
  | [] => (w, [], drift_report)
  | rg_name :: rest =>
      match check_group CONFIG rg_name drift_report w with
      | (w1, evs, drift_report1, Break) => (w1, evs, drift_report1)
      | (w1, evs, drift_report1, Continue) =>
          let '(w2, evs2, drift_report2) :=
            group_loop CONFIG rest drift_report1 w1 in
          (w2, evs ++ evs2, drift_report2)
      end
  end.

(** The loop runs through all of [groups] without a [break]: it starts
    with the report [drift_report] in the state [w] and leaves the last
    of them with the events [evs], the report [drift_report'] and the
    state [w']. *)
Inductive runs_through (CONFIG : Config)
    : list string -> list dict -> World -> list event -> list dict -> World -> Prop :=
| runs_through_nil drift_report w :
    runs_through CONFIG [] drift_report w [] drift_report w
| runs_through_cons rg_name rest drift_report w w1 evs1 drift_report1
      evs drift_report' w' :
    check_group CONFIG rg_name drift_report w
      = (w1, evs1, drift_report1, Continue) ->
    runs_through CONFIG rest drift_report1 w1 evs drift_report' w' ->
    runs_through CONFIG (rg_name :: rest) drift_report w (evs1 ++ evs) drift_report' w'.

(** The provider rejects the authentication while the group [rg_name] is
    processed from the state [w]: either when the group is fetched, or
    while its resources are listed, after [resources] have been yielded.
    [state] is the provisioning state read before, if the group was
    fetched and has that attribute; [w'] is the state the provider is left
    in. *)
Inductive auth_rejected (rg_name : string) (w : World)
    : option string -> list Resource -> World -> Prop :=
| rejected_on_get w' e :
    resource_groups_get rg_name w = (w', inl e) ->
    is_ClientAuthenticationError e = true ->
    auth_rejected rg_name w None [] w'
| rejected_on_list w1 rg state w' resources e :
    resource_groups_get rg_name w = (w1, inr rg) ->
    provisioning_state rg = Some state ->
    list_by_resource_group rg_name w1 = (w', (resources, Some e)) ->
    is_ClientAuthenticationError e = true ->
    auth_rejected rg_name w (Some state) resources w'.

(** The groups the provider was asked to fetch, the groups whose resources
    it was asked to list, and the lines printed, each in the order of the
    trace. *)
Definition fetched (evs : list event) : list string :=
  omap (λ e, match e with GetGroup rg_name => Some rg_name | _ => None end) evs.

Definition listed (evs : list event) : list string :=
  omap (λ e, match e with ListResources rg_name => Some rg_name | _ => None end) evs.

Definition printed (evs : list event) : list string :=
  omap (λ e, match e with Print line => Some line | _ => None end) evs.

(** 3. Report Results. *)
Definition report_results (drift_report : list dict) : list event :=
  match drift_report with
  | _ :: _ =>
      [Print (nl +:+ repeat_char "=" 30);
       Print "⚠️  DRIFT DETECTED REPORT";
       Print (repeat_char "=" 30);
       Print (json_dumps_indent2 drift_report)]
  | [] => [Print (nl +:+ "✅ All checked resources are IN_SYNC and Compliant.")]
  end.

Definition check_azure_drift (CONFIG : Config) (w : World) : World * list event :=
  let started := [Log INFO "--- Starting Azure Drift Check ---"] in
  match authenticate (SUBSCRIPTION_ID CONFIG) w with
  | (w1, inl e) =>
      (w1, started ++
           [Log ERROR ("Authentication Failed. Run 'az login' in your terminal. Error: "
                       +:+ exn_str e)])
  | (w1, inr _) =>
      let '(w2, evs, drift_report) :=
        group_loop CONFIG (RESOURCE_GROUPS CONFIG) [] w1 in
      (w2, started ++ evs ++ report_results drift_report)
  end.

End WithProvider.

End Auditor.

(* ===================================================================== *)
(** * The Stack Drift Notifier ([scripts/root_fallback.py]) *)
(* ===================================================================== *)

Module Notifier.

(** The [CONFIG] dictionary. *)
Record Config : Type := {
  SNS_TOPIC_ARN : string;
  STACK_ARNS : list string
}.

Definition CONFIG : Config := {|
  SNS_TOPIC_ARN := "arn:aws:sns:ap-south-1:471112828084:Detect_Drift";
  STACK_ARNS :=
    ["arn:aws:cloudformation:ap-south-1:471112828084:stack/DynamoDB/eac28c70-f209-11ee-8b09-0a02e01a9aa3";
     "arn:aws:cloudformation:ap-south-1:471112828084:stack/EC2instance/74c0e490-f209-11ee-a0af-0aac48631e59";
     "arn:aws:cloudformation:ap-south-1:471112828084:stack/S3Bucket/edefa5f0-f208-11ee-bd3f-06859283fa06"]
|}.

Definition max_retries : nat := 20.

(** The provider's answers, with the keys the handler reads.  A key read
    with [resp[k]] that may be missing is an [option]; so is one read with
    [.get]. *)
Record detect_resp : Type := { StackDriftDetectionId : string }.

Record status_resp : Type := {
  DetectionStatus : string;
  StackDriftStatus : option string;
  DetectionStatusReason : option string
}.

Record drift : Type := {
  LogicalResourceId : string;
  ResourceType : string;
  StackResourceDriftStatus : string;
  ExpectedProperties : option string;
  ActualProperties : option string
}.

Record page : Type := { StackResourceDrifts : list drift }.

(** The handler's return value. *)
Record response : Type := { statusCode : nat; body : string }.

(** The provider, over its own state [World]: the construction of a client,
    and the operations of the two clients.  A paginator is first asked for
    by the name of its operation, which raises when the client has no
    paginator for it; it is lazy, yields some pages and may then raise. *)
Class Provider (World : Type) : Type := {
  (** [boto3.client(service_name)] *)
  boto3_client : string -> World -> World * (exn + unit);
  (** [cf_client.get_paginator(operation_name)] *)
  get_paginator : string -> World -> World * (exn + unit);
  (** [cf_client.detect_stack_drift(StackName=..)] *)
  detect_stack_drift : string -> World -> World * (exn + detect_resp);
  (** [cf_client.describe_stack_drift_detection_status(StackDriftDetectionId=..)] *)
  describe_stack_drift_detection_status :
    string -> World -> World * (exn + status_resp);
  (** [paginator.paginate(StackName=.., StackResourceDriftStatusFilters=..)]
      of the paginator of [describe_stack_resource_drifts] *)
  paginate : string -> list string -> World -> World * (list page * option exn);
  (** [sns_client.publish(TopicArn=.., Message=.., Subject=..)] *)
  publish : string -> string -> string -> World -> World * (exn + unit)
}.

(** What a run does that can be observed from outside. *)
Inductive event : Type :=
| Log (lvl : level) (msg : string)
| Client (service_name : string)
| GetPaginator (operation_name : string)
| Detect (StackName : string)
| Poll (StackDriftDetectionId : string)
| Sleep (seconds : nat)
| Paginate (StackName : string) (StackResourceDriftStatusFilters : list string)
| Publish (TopicArn Message Subject : string).

Definition is_Publish (e : event) : bool :=
  match e with Publish _ _ _ => true | _ => false end.

Definition is_Poll (e : event) : bool :=
  match e with Poll _ => true | _ => false end.

(** The notifications in a trace, and the number of its polls. *)
Definition publishes (t : list event) : list event := List.filter is_Publish t.

Definition polls (t : list event) : nat := length (List.filter is_Poll t).

(** The stacks a detection was requested for, the seconds slept and the
    paginator calls, each in the order of the trace. *)
Definition detects (t : list event) : list string :=
  omap (λ e, match e with Detect stack_name => Some stack_name | _ => None end) t.

Definition sleeps (t : list event) : list nat :=
  omap (λ e, match e with Sleep seconds => Some seconds | _ => None end) t.

Definition paginator_requests (t : list event) : list string :=
  omap (λ e, match e with
             | GetPaginator operation_name => Some operation_name
             | _ => None
             end) t.

Definition paginates (t : list event) : list (string * list string) :=
  omap (λ e, match e with
             | Paginate stack_name filters => Some (stack_name, filters)
             | _ => None
             end) t.

(** How the polling loop ends: by [break], with the two variables it has
    set, or by running out of attempts (the [else] of the [for]). *)
Inductive polled : Type :=
| LoopBreak (detection_status : string) (stack_drift_status : option string)
| LoopElse.

(** Clean stack name (removes the long ARN path). *)
Definition clean_stack_name (stack_name : string) : exn + string :=
  if contains "/" stack_name then getitem_neg2 (split "/" stack_name)
  else inr stack_name.

(** All the records of the pages, in order. *)
Definition records (pages : list page) : list drift :=
  concat (StackResourceDrifts <$> pages).

(** The dict appended to [drift_details] for one drift record. *)
Definition drift_detail (d : drift) : dict :=
  [("Resource", LogicalResourceId d);
   ("Type", ResourceType d);
   ("Status", StackResourceDriftStatus d);
   ("Expected", default "N/A" (ExpectedProperties d));
   ("Actual", default "N/A" (ActualProperties d))].

(** [for drift in page['StackResourceDrifts']: drift_details.append(..)] *)
Fixpoint drift_loop (drifts : list drift) (drift_details : list dict) : list dict :=
  match drifts with
  | [] => drift_details
  | d :: rest => drift_loop rest (drift_details ++ [drift_detail d])
  end.

(** [for page in page_iterator: ..] on the pages the paginator yields. *)
Fixpoint page_loop (pages : list page) (drift_details : list dict) : list dict :=
  match pages with
  | [] => drift_details
  | p :: rest => page_loop rest (drift_loop (StackResourceDrifts p) drift_details)
  end.

Section WithProvider.
Context {World : Type} `{Provider World} `{Text}.

(** Computations of the handler: they change the provider's state, leave
    a trace of events, and return or raise. *)
Definition M (A : Type) : Type := World -> World * list event * (exn + A).

Definition ret {A} (a : A) : M A := fun w => (w, [], inr a).

Definition raise {A} (e : exn) : M A := fun w => (w, [], inl e).

(** The outcome [x] of a computation, with the events [t1] before its
    own. *)
Definition after {R} (t1 : list event) (x : World * list event * R)
    : World * list event * R :=
  let '(w2, t2, r) := x in (w2, t1 ++ t2, r).

Definition bind {A B} (m : M A) (k : A -> M B) : M B :=
  fun w =>
    match m w with
    | (w1, t1, inl e) => (w1, t1, inl e)
    | (w1, t1, inr a) => after t1 (k a w1)
    end.

(** [try: m except Exception as e: handler(e)] *)
Definition try_except {A} (m : M A) (handler : exn -> M A) : M A :=
  fun w =>
    match m w with
    | (w1, t1, inl e) => after t1 (handler e w1)
    | (w1, t1, inr a) => (w1, t1, inr a)
    end.

Definition emit (e : event) : M unit := fun w => (w, [e], inr tt).

(** A call of the provider, recorded in the trace. *)
Definition call {A} (e : event) (op : World -> World * (exn + A)) : M A :=
  fun w => let '(w1, r) := op w in (w1, [e], r).

Definition lift {A} (r : exn + A) : M A := fun w => (w, [], r).

Notation "x <- m ;; k" := (bind m (fun x => k))
  (at level 100, m at next level, right associativity, only parsing).
Notation "m ;; k" := (bind m (fun _ => k))
  (at level 100, right associativity, only parsing).

Definition logger (lvl : level) (msg : string) : M unit := emit (Log lvl msg).

Definition time_sleep (seconds : nat) : M unit := emit (Sleep seconds).

(** [resp[key]] on a key that may be missing. *)
Definition getitem (key : string) (v : option string) : M string :=
  match v with
  | Some x => ret x
  | None => raise (Exception KeyError ("'" +:+ key +:+ "'"))
  end.

(** [for attempt in range(max_retries): ..], on the attempts left. *)
Fixpoint poll_loop (stack_name drift_detection_id : string) (attempts : nat)
    : M polled :=
  match attempts with
  | O => ret LoopElse
  | S attempts' =>
      status_resp <- call (Poll drift_detection_id)
                       (describe_stack_drift_detection_status drift_detection_id) ;;
      let detection_status := DetectionStatus status_resp in
      if String.eqb detection_status "DETECTION_COMPLETE" then
        stack_drift_status <- getitem "StackDriftStatus" (StackDriftStatus status_resp) ;;
        logger INFO ("Detection complete. Stack Status: " +:+ stack_drift_status) ;;
        ret (LoopBreak detection_status (Some stack_drift_status))
      else if String.eqb detection_status "DETECTION_FAILED" then
        logger ERROR ("Detection failed for stack " +:+ stack_name +:+ ": "
                      +:+ str_opt (DetectionStatusReason status_resp)) ;;
        ret (LoopBreak detection_status None)
      else
        time_sleep 2 ;;
        poll_loop stack_name drift_detection_id attempts'
  end.

(** Step 3: the client is asked for the paginator of
    [describe_stack_resource_drifts]; the paginator is asked for the MODIFIED
    and DELETED records and every page it yields is consumed.  An exception
    raised by either step propagates. *)
Definition fetch_drift_details (stack_name : string) : M (list dict) :=
  paginator <- call (GetPaginator "describe_stack_resource_drifts")
                 (get_paginator "describe_stack_resource_drifts") ;;
  fun w =>
    let filters := ["MODIFIED"; "DELETED"] in
    let '(w1, (pages, raised)) := paginate stack_name filters w in
    (w1, [Paginate stack_name filters],
     match raised with
     | Some e => inl e
     | None => inr (page_loop pages [])
     end).

Definition message_body (clean_stack_name stack_drift_status : string)
    (drift_details : list dict) : string :=
  "⚠️ DRIFT DETECTED" +:+ nl +:+ nl
  +:+ "Stack: " +:+ clean_stack_name +:+ nl
  +:+ "Status: " +:+ stack_drift_status +:+ nl +:+ nl
  +:+ "Drifted Resources (" +:+ str_nat (length drift_details) +:+ "):" +:+ nl
  +:+ json_dumps_indent2 drift_details.

Definition message_subject (clean_stack_name : string) : string :=
  "Drift Report: " +:+ clean_stack_name +:+ " [DRIFTED]".

(** The part of the body of the [try] that follows the polling loop.  The
    value is the entry appended to [results], or [None] where the iteration
    ends by [continue]. *)
Definition after_polling (CONFIG : Config) (stack_name : string) (p : polled)
    : M (option string) :=
  match p with
  | LoopElse =>
      logger WARNING ("Timeout waiting for drift detection on stack: " +:+ stack_name) ;;
      ret None
  | LoopBreak detection_status stack_drift_status =>
      if negb (String.eqb detection_status "DETECTION_COMPLETE") then ret None
      else
        let drifted := bool_decide (stack_drift_status = Some "DRIFTED") in
        drift_details <-
          (if drifted then fetch_drift_details stack_name else ret []) ;;
        clean_stack_name <- lift (clean_stack_name stack_name) ;;
        (if drifted then
           call (Publish (SNS_TOPIC_ARN CONFIG)
                   (message_body clean_stack_name (str_opt stack_drift_status)
                      drift_details)
                   (message_subject clean_stack_name))
             (publish (SNS_TOPIC_ARN CONFIG)
                (message_body clean_stack_name (str_opt stack_drift_status)
                   drift_details)
                (message_subject clean_stack_name))
         else
           logger INFO ("Stack " +:+ clean_stack_name
                        +:+ " is IN_SYNC. No notification sent.")) ;;
        ret (Some (clean_stack_name +:+ ": " +:+ str_opt stack_drift_status))
  end.

(** The body of the [try] for one stack. *)
Definition stack_body (CONFIG : Config) (stack_name : string) : M (option string) :=
  logger INFO ("--- Processing stack: " +:+ stack_name +:+ " ---") ;;
  detect_resp <- call (Detect stack_name) (detect_stack_drift stack_name) ;;
  let drift_detection_id := StackDriftDetectionId detect_resp in
  logger INFO ("Drift detection initiated. ID: " +:+ drift_detection_id) ;;
  p <- poll_loop stack_name drift_detection_id max_retries ;;
  after_polling CONFIG stack_name p.

(** One turn of the loop over the stacks: the [try] and its [except]. *)
Definition process_stack (CONFIG : Config) (stack_name : string) : M (option string) :=
  try_except (stack_body CONFIG stack_name)
    (fun e =>
       logger ERROR ("Error processing stack " +:+ stack_name +:+ ": " +:+ exn_str e) ;;
       ret None).

(** [for stack_name in stack_names]. *)
Fixpoint stack_loop (CONFIG : Config) (stack_names : list string)
    (results : list string) : M (list string) :=
  match stack_names with
  | [] => ret results
  | stack_name :: rest =>
      entry <- process_stack CONFIG stack_name ;;
      stack_loop CONFIG rest
        (match entry with
         | Some line => results ++ [line]
         | None => results
         end)
  end.

(** ** The provider's behaviour, as the specification words it *)

(** A detection status that ends the polling. *)
Definition terminal (detection_status : string) : bool :=
  String.eqb detection_status "DETECTION_COMPLETE"
  || String.eqb detection_status "DETECTION_FAILED".

(** Within [n] polls from the state [w], the provider's first answer with a
    terminal status is [r], given in the state [w']; the polls before it were
    answered with other statuses. *)
Inductive polls_until (drift_detection_id : string)
    : nat -> World -> status_resp -> World -> Prop :=
| polls_until_now n w w' r :
    describe_stack_drift_detection_status drift_detection_id w = (w', inr r) ->
    terminal (DetectionStatus r) = true ->
    polls_until drift_detection_id (S n) w r w'
| polls_until_later n w w1 r1 r w' :
    describe_stack_drift_detection_status drift_detection_id w = (w1, inr r1) ->
    terminal (DetectionStatus r1) = false ->
    polls_until drift_detection_id n w1 r w' ->
    polls_until drift_detection_id (S n) w r w'.

(** The provider answers [n] polls in a row from the state [w], none with a
    terminal status, and is then in the state [w']. *)
Inductive stays_pending (drift_detection_id : string)
    : nat -> World -> World -> Prop :=
| stays_pending_O w : stays_pending drift_detection_id O w w
| stays_pending_S n w w1 r w' :
    describe_stack_drift_detection_status drift_detection_id w = (w1, inr r) ->
    terminal (DetectionStatus r) = false ->
    stays_pending drift_detection_id n w1 w' ->
    stays_pending drift_detection_id (S n) w w'.

(** The detection requested for [stack_name] in the state [w] completes with
    the verdict [verdict] within the polling budget; [w'] is the provider's
    state after the poll that says so. *)
Definition detection_completes (stack_name : string) (w : World)
    (verdict : string) (w' : World) : Prop :=
  ∃ w1 detect_resp status_resp,
    detect_stack_drift stack_name w = (w1, inr detect_resp)
    ∧ polls_until (StackDriftDetectionId detect_resp) max_retries w1 status_resp w'
    ∧ DetectionStatus status_resp = "DETECTION_COMPLETE"
    ∧ StackDriftStatus status_resp = Some verdict.


(** The detection requested for [stack_name] reaches no terminal status
    within the polling budget. *)
Definition detection_times_out (stack_name : string) (w : World) (w' : World) : Prop :=
  ∃ w1 detect_resp,
    detect_stack_drift stack_name w = (w1, inr detect_resp)
    ∧ stays_pending (StackDriftDetectionId detect_resp) max_retries w1 w'.

Definition result_body (results : list string) : string :=
  json_dumps ("Process complete. Results: " +:+ format_list results).

(** The two clients are built first, outside any [try]. *)
Definition lambda_handler {E C : Type} (CONFIG : Config) (event : E) (context : C)
    : M response :=
  cf_client <- call (Client "cloudformation") (boto3_client "cloudformation") ;;
  sns_client <- call (Client "sns") (boto3_client "sns") ;;
  results <- stack_loop CONFIG (STACK_ARNS CONFIG) [] ;;
  ret {| statusCode := 200; body := result_body results |}.

End WithProvider.


(** The return as the specification words it: for every event and whatever
    the provider does, the handler returns a response with the status
    code 200. *)
Definition handler_always_returns : Prop :=
  ∀ (World : Type) (P : Provider World) (T : Text) (CONFIG : Config)
    (E C : Type) (event : E) (context : C) (w : World),
    ∃ w' t r,
      lambda_handler CONFIG event context w = (w', t, inr r)
      ∧ statusCode r = 200.

End Notifier.


(* ===================================================================== *)
(** * Scripted providers, to run the two pipelines on concrete inputs *)
(* ===================================================================== *)

Module Fake.

(** A plain rendering of values as text. *)
Definition render_dict (d : dict) : string :=
  "{" +:+ join ", " ((λ kv, kv.1 +:+ ": " +:+ kv.2) <$> d) +:+ "}".

#[export] Instance text : Text := {|
  json_dumps_indent2 l := "[" +:+ join ", " (render_dict <$> l) +:+ "]";
  json_dumps s := s;
  format_list l := "[" +:+ join ", " l +:+ "]"
|}.

(** What a scripted Azure provider answers for a resource group: it is not
    found, the authentication is rejected, the service fails, or the group
    is found.  The object returned for a group that is found is the one of
    the SDK, which keeps the provisioning state under [properties] and has
    no attribute [provisioning_state] of its own. *)
Inductive group_script : Type :=
| Absent
| Rejects
| Fails
| Found (resources : list Auditor.Resource).

Definition script_of (script : list (string * group_script)) (rg_name : string)
    : group_script :=
  match list_find (λ item, item.1 = rg_name) script with
  | Some (_, (_, g)) => g
  | None => Absent
  end.

(** The scripted Azure provider; its state counts the calls it has
    answered. *)
Definition azure (script : list (string * group_script)) : Auditor.Provider nat := {|
  Auditor.authenticate _ w := (S w, inr tt);
  Auditor.resource_groups_get rg_name w :=
    (S w,
     match script_of script rg_name with
     | Absent => inl (Exception ResourceNotFoundError "ResourceGroupNotFound")
     | Rejects => inl (Exception ClientAuthenticationError "InvalidAuthenticationToken")
     | Fails => inl (Exception OtherException "ServiceUnavailable")
     | Found _ => inr {| Auditor.provisioning_state := None |}
     end);
  Auditor.list_by_resource_group rg_name w :=
    (S w,
     match script_of script rg_name with
     | Found resources => (resources, None)
     | _ => ([], Some (Exception ResourceNotFoundError "ResourceGroupNotFound"))
     end)
|}.

Definition vm_ok : Auditor.Resource := {|
  Auditor.name := "vm-1"; Auditor.type := "Microsoft.Compute/virtualMachines";
  Auditor.location := Some "westeurope";
  Auditor.tags := Some {[ "Environment" := "Production"; "Owner" := "ops" ]}
|}.

Definition vm_wrong_value : Auditor.Resource := {|
  Auditor.name := "vm-2"; Auditor.type := "Microsoft.Compute/virtualMachines";
  Auditor.location := Some "westeurope";
  Auditor.tags := Some {[ "Environment" := "Staging" ]}
|}.

Definition disk_elsewhere : Auditor.Resource := {|
  Auditor.name := "disk-1"; Auditor.type := "Microsoft.Compute/disks";
  Auditor.location := Some "eastus";
  Auditor.tags := None
|}.

Definition azure_script : list (string * group_script) :=
  [("rg-production-app-001", Found [vm_ok; disk_elsewhere]);
   ("rg-production-db-001", Rejects);
   ("rg-late", Found [disk_elsewhere])].

Definition azure_config : Auditor.Config := {|
  Auditor.SUBSCRIPTION_ID := "0000";
  Auditor.TARGET_REGION := "westeurope";
  Auditor.RESOURCE_GROUPS :=
    ["rg-missing"; "rg-production-app-001"; "rg-production-db-001"; "rg-late"];
  Auditor.EXPECTED_TAGS := [("Environment", "Production")]
|}.

(** An Azure provider that is out of reach: authentication passes, and
    every later call raises. *)
Definition service_unavailable : exn := Exception OtherException "ServiceUnavailable".

Definition azure_down : Auditor.Provider nat := {|
  Auditor.authenticate _ w := (S w, inr tt);
  Auditor.resource_groups_get _ w := (S w, inl service_unavailable);
  Auditor.list_by_resource_group _ w := (S w, ([], Some service_unavailable))
|}.

(** An Azure provider whose credentials cannot be built. *)
Definition azure_no_credentials : Auditor.Provider nat := {|
  Auditor.authenticate _ w :=
    (S w, inl (Exception ClientAuthenticationError "No credential available"));
  Auditor.resource_groups_get _ w := (S w, inl service_unavailable);
  Auditor.list_by_resource_group _ w := (S w, ([], Some service_unavailable))
|}.


(** Both configured groups exist. *)
Definition found_script : list (string * group_script) :=
  [("rg-production-app-001", Found [vm_ok; disk_elsewhere]);
   ("rg-production-db-001", Found [vm_wrong_value])].

Definition vm_extra_tag : Auditor.Resource := {|
  Auditor.name := "vm-3"; Auditor.type := "Microsoft.Compute/virtualMachines";
  Auditor.location := Some "eastus";
  Auditor.tags := Some {[ "Environment" := "Production" ]}
|}.

(** What a scripted AWS provider answers for a stack: the number of polls
    it answers with a status in progress, its answer from then on, the drift
    records it holds (of any status) in pages, and the exception, if any,
    that ends the paging. *)
Record stack_script : Type := {
  pending_polls : nat;
  final_answer : exn + Notifier.status_resp;
  held_pages : list Notifier.page;
  paging_error : option exn
}.

Definition stack_script_of (script : list (string * stack_script)) (stack_name : string)
    : option stack_script :=
  match list_find (λ item, item.1 = stack_name) script with
  | Some (_, (_, sc)) => Some sc
  | None => None
  end.

Definition in_progress : Notifier.status_resp := {|
  Notifier.DetectionStatus := "DETECTION_IN_PROGRESS";
  Notifier.StackDriftStatus := Some "NOT_CHECKED";
  Notifier.DetectionStatusReason := None
|}.

Definition no_such_stack : exn := Exception OtherException "Stack does not exist".

(** The provider keeps, in every page, the records whose status is one of the
    filters. *)
Definition filter_page (filters : list string) (p : Notifier.page) : Notifier.page :=
  {| Notifier.StackResourceDrifts :=
       filter (λ d, Notifier.StackResourceDriftStatus d ∈ filters)
         (Notifier.StackResourceDrifts p) |}.

(** What botocore raises for an operation it has no paginator for. *)
Definition not_pageable : exn :=
  Exception OtherException
    "Operation cannot be paginated: describe_stack_resource_drifts".

(** The scripted AWS provider.  The clients are built; as in botocore, the
    CloudFormation client has no paginator for
    [describe_stack_resource_drifts].  A detection job is named after its
    stack; the state counts the polls answered since the last detection
    request. *)
Definition aws (script : list (string * stack_script)) (publish_error : option exn)
    : Notifier.Provider nat := {|
  Notifier.boto3_client _ w := (w, inr tt);
  Notifier.get_paginator _ w := (w, inl not_pageable);
  Notifier.detect_stack_drift stack_name w :=
    match stack_script_of script stack_name with
    | Some _ => (0, inr {| Notifier.StackDriftDetectionId := stack_name |})
    | None => (w, inl no_such_stack)
    end;
  Notifier.describe_stack_drift_detection_status drift_detection_id w :=
    match stack_script_of script drift_detection_id with
    | Some sc =>
        (S w, if Nat.ltb w (pending_polls sc) then inr in_progress else final_answer sc)
    | None => (w, inl no_such_stack)
    end;
  Notifier.paginate stack_name filters w :=
    match stack_script_of script stack_name with
    | Some sc => (w, (filter_page filters <$> held_pages sc, paging_error sc))
    | None => (w, ([], Some no_such_stack))
    end;
  Notifier.publish _ _ _ w :=
    (w, match publish_error with Some e => inl e | None => inr tt end)
|}.

(** A provider for which no region is configured: no client can be built. *)
Definition no_region : exn := Exception OtherException "You must specify a region.".

Definition aws_no_region : Notifier.Provider nat := {|
  Notifier.boto3_client _ w := (w, inl no_region);
  Notifier.get_paginator _ w := (w, inl not_pageable);
  Notifier.detect_stack_drift _ w := (w, inl no_such_stack);
  Notifier.describe_stack_drift_detection_status _ w := (w, inl no_such_stack);
  Notifier.paginate _ _ w := (w, ([], Some no_such_stack));
  Notifier.publish _ _ _ w := (w, inl no_such_stack)
|}.

Definition complete (verdict : string) : Notifier.status_resp := {|
  Notifier.DetectionStatus := "DETECTION_COMPLETE";
  Notifier.StackDriftStatus := Some verdict;
  Notifier.DetectionStatusReason := None
|}.

Definition failed : Notifier.status_resp := {|
  Notifier.DetectionStatus := "DETECTION_FAILED";
  Notifier.StackDriftStatus := None;
  Notifier.DetectionStatusReason := Some "Internal failure"
|}.

Definition record_of (id status : string) : Notifier.drift := {|
  Notifier.LogicalResourceId := id;
  Notifier.ResourceType := "AWS::DynamoDB::Table";
  Notifier.StackResourceDriftStatus := status;
  Notifier.ExpectedProperties := Some "{}";
  Notifier.ActualProperties := None
|}.

Definition drifted_pages : list Notifier.page :=
  [{| Notifier.StackResourceDrifts :=
        [record_of "Orders" "MODIFIED"; record_of "Users" "IN_SYNC"] |};
   {| Notifier.StackResourceDrifts :=
        [record_of "Audit" "NOT_CHECKED"; record_of "Sessions" "DELETED"] |}].

Definition dynamo_arn : string :=
  "arn:aws:cloudformation:ap-south-1:471112828084:stack/DynamoDB/eac28c70".

Definition aws_script : list (string * stack_script) :=
  [(dynamo_arn,
    {| pending_polls := 2; final_answer := inr (complete "DRIFTED");
       held_pages := drifted_pages; paging_error := None |});
   ("MyStack",
    {| pending_polls := 1; final_answer := inr (complete "IN_SYNC");
       held_pages := []; paging_error := None |});
   ("Broken",
    {| pending_polls := 0; final_answer := inr failed;
       held_pages := []; paging_error := None |});
   ("Slow",
    {| pending_polls := 30; final_answer := inr (complete "IN_SYNC");
       held_pages := []; paging_error := None |})].

Definition no_verdict : Notifier.status_resp := {|
  Notifier.DetectionStatus := "DETECTION_COMPLETE";
  Notifier.StackDriftStatus := None;
  Notifier.DetectionStatusReason := None
|}.

Definition throttled : exn := Exception OtherException "Rate exceeded".

(** More stacks: one whose verdict is neither DRIFTED nor IN_SYNC, one whose
    completed answer lacks the verdict, and one whose second poll raises. *)
Definition odd_script : list (string * stack_script) :=
  [("stack/Odd/1",
    {| pending_polls := 0; final_answer := inr (complete "UNKNOWN");
       held_pages := drifted_pages; paging_error := None |});
   ("NoVerdict",
    {| pending_polls := 1; final_answer := inr no_verdict;
       held_pages := []; paging_error := None |});
   ("Flaky",
    {| pending_polls := 1; final_answer := inl throttled;
       held_pages := []; paging_error := None |})].

Definition aws_config (stacks : list string) : Notifier.Config := {|
  Notifier.SNS_TOPIC_ARN := "arn:aws:sns:ap-south-1:471112828084:Detect_Drift";
  Notifier.STACK_ARNS := stacks
|}.

End Fake.

(* ===================================================================== *)
(** * Properties of the Resource Group Auditor *)
(* ===================================================================== *)

Module AuditorProofs.
Import Auditor.

Example check_resource_ok : check_resource CONFIG Fake.vm_ok = None.
Proof. vm_compute. reflexivity. Qed.

Example check_resource_elsewhere :
  check_resource CONFIG Fake.disk_elsewhere
  = Some [("Resource", "disk-1"); ("Type", "Microsoft.Compute/disks");
          ("Status", "DRIFTED");
          ("Details",
           "Region: eastus (Expected westeurope), Missing Tag: Environment=Production")].
Proof. vm_compute. reflexivity. Qed.

(** ** The loop over the resources *)

Section Resources.
Variable CONFIG : Config.

(** The tag loop adds, to what the region check left, one reason per expected
    tag that differs, and raises the flag when there is one. *)
Lemma foldl_tag_check (resource : Resource) (items : list (string * string))
    (drifted : bool) (reasons : list string) :
  foldl (tag_check (default ∅ (tags resource))) (drifted, reasons) items
  = (drifted || bool_decide (Exists (tag_differs resource) items),
     reasons ++ ((λ item, tag_reason item.1 item.2)
                   <$> filter (tag_differs resource) items)).
Proof.
  revert drifted reasons.
  induction items as [|[key value] items IH]; intros drifted reasons.
  - cbn [foldl]. rewrite bool_decide_eq_false_2 by (intros Hx; inversion Hx).
    rewrite filter_nil, fmap_nil. by rewrite orb_false_r, app_nil_r.
  - cbn [foldl tag_check]. rewrite filter_cons.
    destruct (decide (tag_differs resource (key, value))) as [Hd|Hd].
    + rewrite bool_decide_eq_true_2 by exact Hd.
      rewrite IH. cbn [snd]. f_equal.
      * rewrite (bool_decide_eq_true_2 (Exists _ (_ :: _)))
          by (by apply Exists_cons_hd).
        by rewrite orb_true_r.
      * by rewrite fmap_cons, <- app_assoc.
    + rewrite bool_decide_eq_false_2 by exact Hd.
      rewrite IH. f_equal. f_equal. apply bool_decide_ext.
      rewrite Exists_cons. tauto.
Qed.

(** The loop body computes the finding the specification asks for. *)
Lemma check_resource_expected (resource : Resource) :
  check_resource CONFIG resource = expected_finding CONFIG resource.
Proof.
  unfold check_resource, expected_finding, region_check, failing_reasons, mismatched.
  destruct (decide (region_differs CONFIG resource)) as [Hr|Hr].
  - rewrite bool_decide_eq_true_2 by exact Hr.
    cbn [snd app]. rewrite foldl_tag_check. cbn [orb].
    rewrite decide_True by (by left). done.
  - rewrite bool_decide_eq_false_2 by exact Hr.
    rewrite foldl_tag_check. cbn [orb app].
    destruct (decide (Exists (tag_differs resource) (EXPECTED_TAGS CONFIG))) as [He|He].
    + rewrite bool_decide_eq_true_2 by exact He.
      rewrite decide_True by (by right). done.
    + rewrite bool_decide_eq_false_2 by exact He.
      rewrite decide_False by tauto. done.
Qed.

(** Every resource adds its own finding, if it has one, and nothing else. *)
Lemma resource_loop_omap (resources : list Resource) (drift_report : list dict) :
  resource_loop CONFIG resources drift_report
  = drift_report ++ omap (check_resource CONFIG) resources.
Proof.
  revert drift_report.
  induction resources as [|resource rest IH]; intros drift_report; cbn.
  - by rewrite app_nil_r.
  - rewrite IH. destruct (check_resource CONFIG resource); [|done].
    by rewrite <- app_assoc.
Qed.

End Resources.


(** ** A tag with another value and a missing tag *)

(** A dict has one value per key. *)
Lemma dict_value_unique (items : list (string * string)) (key v1 v2 : string) :
  NoDup items.*1 -> (key, v1) ∈ items -> (key, v2) ∈ items -> v1 = v2.
Proof.
  induction items as [|[k v] items IH]; cbn; intros Hnd H1 H2.
  - by apply elem_of_nil in H1.
  - apply NoDup_cons in Hnd as [Hk Hnd].
    apply elem_of_cons in H1 as [H1|H1]; apply elem_of_cons in H2 as [H2|H2].
    + congruence.
    + exfalso. apply Hk. injection H1 as -> ->.
      apply list_elem_of_fmap. by exists (k, v2).
    + exfalso. apply Hk. injection H2 as -> ->.
      apply list_elem_of_fmap. by exists (k, v1).
    + by apply IH.
Qed.

Lemma filter_ext_elem_of {A} (P Q : A -> Prop)
    `{!∀ x, Decision (P x), !∀ x, Decision (Q x)} (l : list A) :
  (∀ x, x ∈ l -> P x ↔ Q x) -> filter P l = filter Q l.
Proof.
  induction l as [|a l IH]; intros Hext; [done|].
  rewrite !filter_cons.
  assert (P a ↔ Q a) as Ha by (apply Hext; left).
  assert (filter P l = filter Q l) as ->
    by (apply IH; intros x Hx; apply Hext; by right).
  destruct (decide (P a)), (decide (Q a)); tauto || done.
Qed.

(** C10.  When an expected tag key is present on a resource with a value that
    is not the configured one, the resource's finding lists the reason
    ["Missing Tag: <key>=<expected value>"], and the finding is the very one
    the resource would get without that key: the report does not tell a tag
    with another value from a missing tag. *)
Theorem wrong_value_reported_as_missing (CONFIG : Config) (resource : Resource)
    (current_tags : gmap string string) (key value actual : string) :
  NoDup (EXPECTED_TAGS CONFIG).*1 ->
  (key, value) ∈ EXPECTED_TAGS CONFIG ->
  tags resource = Some current_tags ->
  current_tags !! key = Some actual ->
  actual ≠ value ->
  (∃ drift_reasons,
      check_resource CONFIG resource
      = Some [("Resource", name resource); ("Type", type resource);
              ("Status", "DRIFTED"); ("Details", join ", " drift_reasons)]
      ∧ "Missing Tag: " +:+ key +:+ "=" +:+ value ∈ drift_reasons)
  ∧ check_resource CONFIG (with_tags resource (Some (delete key current_tags)))
    = check_resource CONFIG resource.
Proof.
  intros Hnd Hin Htags Hkey Hne.
  assert (tag_differs resource (key, value)) as Hd.
  { unfold tag_differs. rewrite Htags. cbn. rewrite Hkey. congruence. }
  assert (mismatched CONFIG resource) as Hm.
  { right. apply Exists_exists. by exists (key, value). }
  assert (filter (tag_differs (with_tags resource (Some (delete key current_tags))))
            (EXPECTED_TAGS CONFIG)
          = filter (tag_differs resource) (EXPECTED_TAGS CONFIG)) as Hfilter.
  { apply filter_ext_elem_of. intros [k v] Hkv.
    unfold tag_differs. rewrite Htags. cbn.
    destruct (decide (k = key)) as [->|Hk].
    - rewrite (dict_value_unique _ _ _ _ Hnd Hkv Hin).
      rewrite lookup_delete_eq, Hkey. split; congruence.
    - by rewrite lookup_delete_ne. }
  split.
  - exists (failing_reasons CONFIG resource). split.
    + rewrite check_resource_expected. unfold expected_finding.
      by rewrite decide_True.
    + unfold failing_reasons. apply elem_of_app. right.
      apply list_elem_of_fmap. exists (key, value). split; [done|].
      by apply list_elem_of_filter.
  - rewrite !check_resource_expected. unfold expected_finding.
    rewrite (decide_True (P := mismatched CONFIG resource)) by done.
    rewrite decide_True.
    + unfold drifted_finding, failing_reasons. rewrite Hfilter. reflexivity.
    + right. apply Exists_exists. exists (key, value). split; [done|].
      unfold tag_differs. cbn. by rewrite lookup_delete_eq.
Qed.

(** On the sample resources: ["Environment"] holds ["Staging"] on the
    resource, the baseline asks for ["Production"]. *)
Lemma wrong_value_reported_as_missing_witness :
  (∃ drift_reasons,
      check_resource CONFIG Fake.vm_wrong_value
      = Some [("Resource", "vm-2"); ("Type", "Microsoft.Compute/virtualMachines");
              ("Status", "DRIFTED"); ("Details", join ", " drift_reasons)]
      ∧ "Missing Tag: Environment=Production" ∈ drift_reasons)
  ∧ check_resource CONFIG
      (with_tags Fake.vm_wrong_value
         (Some (delete "Environment" {[ "Environment" := "Staging" ]})))
    = check_resource CONFIG Fake.vm_wrong_value.
Proof.
  apply (wrong_value_reported_as_missing CONFIG Fake.vm_wrong_value
           {[ "Environment" := "Staging" ]} "Environment" "Production" "Staging").
  - cbn. apply NoDup_singleton.
  - cbn. apply list_elem_of_singleton. reflexivity.
  - reflexivity.
  - vm_compute. reflexivity.
  - discriminate.
Defined.

(** ** The loop over the resource groups *)

Section Groups.
Context {World : Type} `{Provider World} `{Text}.
Variable CONFIG : Config.

(** A stretch of the loop that runs without [break] can be split off. *)
Lemma group_loop_runs_through (groups rest : list string)
    (drift_report drift_report' : list dict) (w w' : World) (evs : list event) :
  runs_through CONFIG groups drift_report w evs drift_report' w' ->
  group_loop CONFIG (groups ++ rest) drift_report w
  = let '(w2, evs2, drift_report2) := group_loop CONFIG rest drift_report' w' in
    (w2, evs ++ evs2, drift_report2).
Proof.
  induction 1 as [drift_report w
                 |rg_name groups drift_report w w1 evs1 drift_report1
                    evs drift_report' w' Hgroup _ IH].
  - cbn. by destruct (group_loop CONFIG rest drift_report w) as [[? ?] ?].
  - cbn [app group_loop]. rewrite Hgroup, IH.
    destruct (group_loop CONFIG rest drift_report' w') as [[? ?] ?].
    by rewrite app_assoc.
Qed.

(** What the loop has done when the provider rejects the authentication. *)
Lemma check_group_rejected (rg_name : string) (drift_report : list dict)
    (w w' : World) (state : option string) (resources : list Resource) :
  auth_rejected rg_name w state resources w' ->
  check_group CONFIG rg_name drift_report w
  = (w',
     [Log INFO ("Checking Resource Group: " +:+ rg_name); GetGroup rg_name]
     ++ match state with Some _ => [ListResources rg_name] | None => [] end
     ++ [Log ERROR "Authentication rejected. Check your Subscription ID."],
     (drift_report
      ++ match state with
         | Some st => if String.eqb st "Succeeded" then []
                      else [unhealthy_finding rg_name st]
         | None => []
         end)
     ++ omap (check_resource CONFIG) resources,
     Break).
Proof.
  intros [w1 e Hget He|w1 rg st w2 rs e Hget Hstate Hlist He]; unfold check_group.
  - rewrite Hget.
    assert (is_ResourceNotFoundError e = false) as ->.
    { unfold is_ClientAuthenticationError in He. unfold is_ResourceNotFoundError.
      by destruct (exn_kind e). }
    unfold handle_exception. rewrite He. cbn. by rewrite !app_nil_r.
  - rewrite Hget, Hstate, Hlist. unfold handle_exception. rewrite He.
    rewrite resource_loop_omap.
    destruct (String.eqb st "Succeeded"); cbn; by rewrite ?app_nil_r.
Qed.

(** C5.  When the provider reports that a configured resource group is not
    found, the Auditor appends the single finding
    [{ResourceGroup: <name>, Status: "MISSING"}], asks the provider nothing
    more about that group (its resources are not listed, so neither state,
    region nor tags are checked) and goes on with the remaining groups. *)
Theorem missing_group (rg_name : string) (drift_report : list dict)
    (w w1 : World) (e : exn) :
  resource_groups_get rg_name w = (w1, inl e) ->
  is_ResourceNotFoundError e = true ->
  check_group CONFIG rg_name drift_report w
  = (w1,
     [Log INFO ("Checking Resource Group: " +:+ rg_name);
      GetGroup rg_name;
      Log ERROR ("Resource Group '" +:+ rg_name +:+ "' NOT FOUND.")],
     drift_report ++ [[("ResourceGroup", rg_name); ("Status", "MISSING")]],
     Continue)
  ∧ ∀ rest : list string,
      group_loop CONFIG (rg_name :: rest) drift_report w
      = let '(w2, evs, drift_report2) :=
          group_loop CONFIG rest
            (drift_report ++ [[("ResourceGroup", rg_name); ("Status", "MISSING")]]) w1 in
        (w2,
         [Log INFO ("Checking Resource Group: " +:+ rg_name);
          GetGroup rg_name;
          Log ERROR ("Resource Group '" +:+ rg_name +:+ "' NOT FOUND.")] ++ evs,
         drift_report2).
Proof.
  intros Hget He.
  assert (check_group CONFIG rg_name drift_report w
          = (w1,
             [Log INFO ("Checking Resource Group: " +:+ rg_name);
              GetGroup rg_name;
              Log ERROR ("Resource Group '" +:+ rg_name +:+ "' NOT FOUND.")],
             drift_report ++ [missing_finding rg_name],
             Continue)) as Hgroup.
  { unfold check_group. by rewrite Hget, He. }
  split; [exact Hgroup|].
  intros rest. cbn [group_loop]. by rewrite Hgroup.
Qed.

(** C6.  When the provider rejects the authentication while some group is
    processed, after the groups before it went through, the run asks the
    provider nothing about the later groups, keeps every finding collected
    until then (those of the earlier groups and those of the group at hand)
    and prints, after the log of the rejection, the report made of these
    findings: the four lines of the drift report, or the compliant line when
    no finding was collected. *)
Theorem rejection_keeps_findings (pre post : list string) (rg_name : string)
    (w0 w1 w w' : World) (u : unit) (evs_pre : list event)
    (report_pre : list dict) (state : option string) (resources : list Resource) :
  RESOURCE_GROUPS CONFIG = pre ++ rg_name :: post ->
  authenticate (SUBSCRIPTION_ID CONFIG) w0 = (w1, inr u) ->
  runs_through CONFIG pre [] w1 evs_pre report_pre w ->
  auth_rejected rg_name w state resources w' ->
  let kept :=
    (report_pre
     ++ match state with
        | Some st => if String.eqb st "Succeeded" then []
                     else [[("ResourceGroup", rg_name); ("Status", "UNHEALTHY");
                            ("Reason", "State is " +:+ st)]]
        | None => []
        end)
    ++ omap (check_resource CONFIG) resources in
  check_azure_drift CONFIG w0
  = (w',
     [Log INFO "--- Starting Azure Drift Check ---"]
     ++ (evs_pre
         ++ [Log INFO ("Checking Resource Group: " +:+ rg_name); GetGroup rg_name]
         ++ match state with Some _ => [ListResources rg_name] | None => [] end
         ++ [Log ERROR "Authentication rejected. Check your Subscription ID."])
     ++ match kept with
        | [] => [Print (nl +:+ "✅ All checked resources are IN_SYNC and Compliant.")]
        | _ :: _ =>
            [Print (nl +:+ repeat_char "=" 30);
             Print "⚠️  DRIFT DETECTED REPORT";
             Print (repeat_char "=" 30);
             Print (json_dumps_indent2 kept)]
        end).
Proof.
  intros Hgroups Hauth Hpre Hrej kept.
  unfold check_azure_drift. rewrite Hauth, Hgroups.
  rewrite (group_loop_runs_through _ _ _ _ _ _ _ Hpre).
  cbn [group_loop]. rewrite (check_group_rejected _ _ _ _ _ _ Hrej).
  subst kept. unfold report_results, unhealthy_finding. reflexivity.
Qed.

End Groups.

(** A whole run on the configured groups: the first one is found, and the
    read of its provisioning state raises; the second one is not found. *)
Example check_azure_drift_run :
  check_azure_drift
    (H := Fake.azure [("rg-production-app-001", Fake.Found [Fake.disk_elsewhere])])
    (H0 := Fake.text) CONFIG 0
  = (3,
     [Log INFO "--- Starting Azure Drift Check ---";
      Log INFO "Checking Resource Group: rg-production-app-001";
      GetGroup "rg-production-app-001";
      Log ERROR
        "Unexpected error checking rg-production-app-001: 'ResourceGroup' object has no attribute 'provisioning_state'";
      Log INFO "Checking Resource Group: rg-production-db-001";
      GetGroup "rg-production-db-001";
      Log ERROR "Resource Group 'rg-production-db-001' NOT FOUND.";
      Print (nl +:+ "==============================");
      Print "⚠️  DRIFT DETECTED REPORT";
      Print "==============================";
      Print "[{ResourceGroup: rg-production-db-001, Status: MISSING}]"]).
Proof. vm_compute. reflexivity. Qed.

(** The scenario of the specification: the group ["rg-x"] is not found. *)
Lemma missing_group_witness :
  check_group (H := Fake.azure []) CONFIG "rg-x" [] 0
  = (1,
     [Log INFO "Checking Resource Group: rg-x"; GetGroup "rg-x";
      Log ERROR "Resource Group 'rg-x' NOT FOUND."],
     [[("ResourceGroup", "rg-x"); ("Status", "MISSING")]],
     Continue).
Proof.
  apply (proj1 (missing_group (H := Fake.azure []) CONFIG "rg-x" [] 0 1
                  (Exception ResourceNotFoundError "ResourceGroupNotFound")
                  eq_refl eq_refl)).
Defined.

(** Four groups: the first one is not found, the second one is found, and
    the provider rejects the authentication when the third one is fetched.
    The finding of the first group is reported, and the fourth group is
    never asked for. *)
Lemma rejection_keeps_findings_witness :
  check_azure_drift (H := Fake.azure Fake.azure_script) (H0 := Fake.text)
    Fake.azure_config 0
  = (4,
     [Log INFO "--- Starting Azure Drift Check ---";
      Log INFO "Checking Resource Group: rg-missing";
      GetGroup "rg-missing";
      Log ERROR "Resource Group 'rg-missing' NOT FOUND.";
      Log INFO "Checking Resource Group: rg-production-app-001";
      GetGroup "rg-production-app-001";
      Log ERROR
        "Unexpected error checking rg-production-app-001: 'ResourceGroup' object has no attribute 'provisioning_state'";
      Log INFO "Checking Resource Group: rg-production-db-001";
      GetGroup "rg-production-db-001";
      Log ERROR "Authentication rejected. Check your Subscription ID.";
      Print (nl +:+ repeat_char "=" 30);
      Print "⚠️  DRIFT DETECTED REPORT";
      Print (repeat_char "=" 30);
      Print (json_dumps_indent2 (Text := Fake.text)
               [[("ResourceGroup", "rg-missing"); ("Status", "MISSING")]])]).
Proof.
  refine (rejection_keeps_findings (H := Fake.azure Fake.azure_script)
            (H0 := Fake.text) Fake.azure_config
            ["rg-missing"; "rg-production-app-001"] ["rg-late"]
            "rg-production-db-001" 0 1 3 4 tt
            ([Log INFO "Checking Resource Group: rg-missing";
              GetGroup "rg-missing";
              Log ERROR "Resource Group 'rg-missing' NOT FOUND."]
             ++ ([Log INFO "Checking Resource Group: rg-production-app-001";
                  GetGroup "rg-production-app-001";
                  Log ERROR
                    "Unexpected error checking rg-production-app-001: 'ResourceGroup' object has no attribute 'provisioning_state'"]
                 ++ []))
            [[("ResourceGroup", "rg-missing"); ("Status", "MISSING")]]
            None [] eq_refl eq_refl _ _).
  - eapply runs_through_cons; [reflexivity|].
    eapply runs_through_cons; [reflexivity|apply runs_through_nil].
  - eapply (rejected_on_get (H := Fake.azure Fake.azure_script)
              "rg-production-db-001" 3 4); reflexivity.
Defined.

(** ** Further properties of the Auditor *)

Lemma omap_check_resource_expected (CONFIG : Config) (resources : list Resource) :
  omap (check_resource CONFIG) resources = omap (expected_finding CONFIG) resources.
Proof.
  induction resources as [|resource rest IH]; [done|].
  cbn. by rewrite check_resource_expected, IH.
Qed.

Lemma failing_reasons_nil (CONFIG : Config) (resource : Resource) :
  ¬ mismatched CONFIG resource -> failing_reasons CONFIG resource = [].
Proof.
  intros Hm. unfold failing_reasons.
  rewrite decide_False by (intros Hr; apply Hm; by left).
  assert (filter (tag_differs resource) (EXPECTED_TAGS CONFIG) = []) as ->; [|done].
  assert (¬ Exists (tag_differs resource) (EXPECTED_TAGS CONFIG)) as Hex
    by (intros He; apply Hm; by right).
  induction (EXPECTED_TAGS CONFIG) as [|item items IH]; [done|].
  rewrite filter_cons, decide_False by (intros Hd; apply Hex; by left).
  apply IH. intros He. apply Hex. by right.
Qed.

Lemma failing_reasons_length (CONFIG : Config) (resource : Resource) :
  length (failing_reasons CONFIG resource) <= S (length (EXPECTED_TAGS CONFIG)).
Proof.
  unfold failing_reasons. rewrite length_app, length_fmap.
  pose proof (length_filter (tag_differs resource) (EXPECTED_TAGS CONFIG)).
  destruct (decide (region_differs CONFIG resource)); cbn; lia.
Qed.

Lemma failing_reasons_mismatched (CONFIG : Config) (resource : Resource) :
  mismatched CONFIG resource -> 1 <= length (failing_reasons CONFIG resource).
Proof.
  intros [Hr|He]; unfold failing_reasons; rewrite length_app.
  - rewrite decide_True by done. cbn. lia.
  - apply Exists_exists in He as (item & Hin & Hd).
    assert (item ∈ filter (tag_differs resource) (EXPECTED_TAGS CONFIG)) as Hf
      by (by apply list_elem_of_filter).
    rewrite length_fmap.
    destruct (filter (tag_differs resource) (EXPECTED_TAGS CONFIG));
      [by apply elem_of_nil in Hf|cbn; lia].
Qed.

(** X1.  A DRIFTED finding is appended for a resource exactly when its list of
    failing reasons is not empty; the list then names between one reason and
    one more than there are expected tags. *)
Theorem finding_reasons_bounds (CONFIG : Config) (resource : Resource) :
  match check_resource CONFIG resource with
  | Some finding =>
      finding = drifted_finding resource (failing_reasons CONFIG resource)
      ∧ 1 <= length (failing_reasons CONFIG resource)
        <= S (length (EXPECTED_TAGS CONFIG))
  | None => failing_reasons CONFIG resource = []
  end.
Proof.
  rewrite check_resource_expected. unfold expected_finding.
  destruct (decide (mismatched CONFIG resource)) as [Hm|Hm].
  - split; [done|]. split.
    + by apply failing_reasons_mismatched.
    + apply failing_reasons_length.
  - by apply failing_reasons_nil.
Qed.

(** X2.  Tags the baseline does not name play no part: a resource gets the
    same finding with or without a tag whose key is not an expected key, and
    a resource without a tag dict is treated as one with an empty dict. *)
Theorem unexpected_tags_ignored (CONFIG : Config) (resource : Resource)
    (current_tags : gmap string string) (key value : string) :
  tags resource = Some current_tags ->
  key ∉ (EXPECTED_TAGS CONFIG).*1 ->
  check_resource CONFIG (with_tags resource (Some (<[key:=value]> current_tags)))
  = check_resource CONFIG resource
  ∧ check_resource CONFIG (with_tags resource None)
    = check_resource CONFIG (with_tags resource (Some ∅)).
Proof.
  intros Htags Hkey. split; [|reflexivity].
  assert (∀ st, foldl (tag_check (<[key:=value]> current_tags)) st (EXPECTED_TAGS CONFIG)
                = foldl (tag_check current_tags) st (EXPECTED_TAGS CONFIG)) as Hfold.
  { induction (EXPECTED_TAGS CONFIG) as [|[k v] items IH]; intros st; [done|].
    cbn [foldl]. rewrite fmap_cons, not_elem_of_cons in Hkey.
    destruct Hkey as [Hk Hitems]. cbn in Hk.
    rewrite (IH Hitems). f_equal. unfold tag_check.
    by rewrite lookup_insert_ne. }
  unfold check_resource. rewrite Htags. cbn [with_tags tags default].
  rewrite Hfold. reflexivity.
Qed.

Lemma unexpected_tags_ignored_witness :
  check_resource CONFIG
    (with_tags Fake.vm_extra_tag
       (Some (<["Owner":="ops"]> {[ "Environment" := "Production" ]})))
  = check_resource CONFIG Fake.vm_extra_tag.
Proof.
  apply (proj1 (unexpected_tags_ignored CONFIG Fake.vm_extra_tag
                  {[ "Environment" := "Production" ]} "Owner" "ops" eq_refl
                  ltac:(cbn; apply not_elem_of_cons; split;
                        [discriminate|apply not_elem_of_nil]))).
Defined.

Section Runs.
Context {World : Type} `{Provider World} `{Text}.
Variable CONFIG : Config.

(** What one turn of the loop leaves in the trace and in the report. *)
Lemma check_group_shape (rg_name : string) (drift_report : list dict) (w : World) :
  fetched (check_group CONFIG rg_name drift_report w).1.1.2 = [rg_name]
  ∧ (listed (check_group CONFIG rg_name drift_report w).1.1.2 = []
     ∨ listed (check_group CONFIG rg_name drift_report w).1.1.2 = [rg_name])
  ∧ printed (check_group CONFIG rg_name drift_report w).1.1.2 = []
  ∧ drift_report `prefix_of` (check_group CONFIG rg_name drift_report w).1.2.
Proof.
  unfold check_group, handle_exception.
  destruct (resource_groups_get rg_name w) as [w1 [e|rg]].
  - destruct (is_ResourceNotFoundError e).
    + cbn. repeat split; auto. by eexists.
    + destruct (is_ClientAuthenticationError e); cbn; repeat split; auto.
  - destruct (provisioning_state rg) as [state|]; [|cbn; repeat split; auto].
    destruct (list_by_resource_group rg_name w1) as [w2 [resources raised]].
    assert (drift_report
            `prefix_of` resource_loop CONFIG resources
                          (if negb (String.eqb state "Succeeded")
                           then drift_report ++ [unhealthy_finding rg_name state]
                           else drift_report)) as Hprefix.
    { rewrite resource_loop_omap.
      destruct (negb (String.eqb state "Succeeded"));
        [rewrite <- app_assoc|]; by eexists. }
    destruct raised as [e|]; [destruct (is_ClientAuthenticationError e)|];
      cbn; repeat split; auto.
Qed.

(** What the loop over the groups leaves in the trace and in the report. *)
Lemma group_loop_shape (groups : list string) (drift_report : list dict) (w : World) :
  fetched (group_loop CONFIG groups drift_report w).1.2 `prefix_of` groups
  ∧ listed (group_loop CONFIG groups drift_report w).1.2
    `sublist_of` fetched (group_loop CONFIG groups drift_report w).1.2
  ∧ printed (group_loop CONFIG groups drift_report w).1.2 = []
  ∧ drift_report `prefix_of` (group_loop CONFIG groups drift_report w).2.
Proof.
  revert drift_report w.
  induction groups as [|rg_name rest IH]; intros drift_report w.
  - cbn. repeat split; done.
  - cbn [group_loop].
    pose proof (check_group_shape rg_name drift_report w)
      as (Hfetched & Hlisted & Hprinted & Hprefix).
    destruct (check_group CONFIG rg_name drift_report w)
      as [[[w1 evs] drift_report1] c].
    cbn [fst snd] in Hfetched, Hlisted, Hprinted, Hprefix.
    assert (listed evs `sublist_of` [rg_name]) as Hsub.
    { destruct Hlisted as [->| ->]; [apply sublist_nil_l|done]. }
    destruct c.
    + specialize (IH drift_report1 w1).
      destruct (group_loop CONFIG rest drift_report1 w1) as [[w2 evs2] drift_report2].
      cbn [fst snd] in *. destruct IH as (IH1 & IH2 & IH3 & IH4).
      unfold fetched, listed, printed in *. rewrite !omap_app.
      rewrite Hfetched, Hprinted, IH3. repeat split.
      * by apply (prefix_app [rg_name]).
      * by apply sublist_app.
      * by etrans.
    + cbn [fst snd]. rewrite Hfetched, Hprinted. repeat split; auto.
      by apply (prefix_app_r [rg_name] [rg_name] rest).
Qed.

(** X3.  Whatever the provider does, the loop over the groups only ever
    appends to the report: the findings it starts with are still there, in
    the same order, at the head of the report it ends with. *)
Theorem report_only_grows (groups : list string) (drift_report : list dict) (w : World) :
  drift_report `prefix_of` (group_loop CONFIG groups drift_report w).2.
Proof. apply group_loop_shape. Qed.

(** A stretch of the loop without [break] fetches every group of it. *)
Lemma runs_through_fetched (groups : list string) (drift_report drift_report' : list dict)
    (w w' : World) (evs : list event) :
  runs_through CONFIG groups drift_report w evs drift_report' w' ->
  fetched evs = groups.
Proof.
  induction 1 as [|rg_name rest drift_report w w1 evs1 drift_report1
                    evs drift_report' w' Hgroup _ IH]; [done|].
  pose proof (check_group_shape rg_name drift_report w) as (Hf & _).
  rewrite Hgroup in Hf. cbn [fst snd] in Hf.
  unfold fetched in *. by rewrite omap_app, Hf, IH.
Qed.

(** The loop either runs through all the groups, or runs through some of
    them and stops at the next one. *)
Lemma group_loop_cases (groups : list string) (drift_report : list dict) (w : World) :
  (∃ evs drift_report' w',
      runs_through CONFIG groups drift_report w evs drift_report' w'
      ∧ group_loop CONFIG groups drift_report w = (w', evs, drift_report'))
  ∨ (∃ pre rg_name post evs_pre drift_report1 w1,
        groups = pre ++ rg_name :: post
        ∧ runs_through CONFIG pre drift_report w evs_pre drift_report1 w1
        ∧ (check_group CONFIG rg_name drift_report1 w1).2 = Break
        ∧ group_loop CONFIG groups drift_report w
          = ((check_group CONFIG rg_name drift_report1 w1).1.1.1,
             evs_pre ++ (check_group CONFIG rg_name drift_report1 w1).1.1.2,
             (check_group CONFIG rg_name drift_report1 w1).1.2)).
Proof.
  revert drift_report w.
  induction groups as [|rg_name rest IH]; intros drift_report w.
  - left. exists [], drift_report, w. split; [constructor|done].
  - destruct (check_group CONFIG rg_name drift_report w)
      as [[[w1 evs1] drift_report1] c] eqn:Hgroup.
    destruct c.
    + destruct (IH drift_report1 w1)
        as [(evs & drift_report' & w' & Hrun & Hloop)
           |(pre & rg' & post & evs_pre & drift_report2 & w2
             & -> & Hrun & Hbreak & Hloop)].
      * left. exists (evs1 ++ evs), drift_report', w'. split.
        -- by eapply runs_through_cons.
        -- cbn [group_loop]. by rewrite Hgroup, Hloop.
      * right. exists (rg_name :: pre), rg', post, (evs1 ++ evs_pre), drift_report2, w2.
        split; [done|]. split; [by eapply runs_through_cons|]. split; [done|].
        cbn [app group_loop]. rewrite Hgroup, Hloop. by rewrite app_assoc.
    + right. exists [], rg_name, rest, [], drift_report, w.
      split; [done|]. split; [constructor|]. rewrite Hgroup.
      split; [done|]. cbn [group_loop]. by rewrite Hgroup.
Qed.

(** X4.  Whatever the provider does, the groups it is asked to fetch are the
    configured groups in their order: all of them when no turn of the loop
    ends in a [break], and otherwise those up to and including the first
    group whose turn does.  The groups whose resources it is asked to list
    are, in the same order, among the groups fetched, and the loop itself
    prints nothing. *)
Theorem groups_fetched_in_order (groups : list string) (drift_report : list dict)
    (w : World) :
  ((∃ evs drift_report' w',
       runs_through CONFIG groups drift_report w evs drift_report' w'
       ∧ group_loop CONFIG groups drift_report w = (w', evs, drift_report')
       ∧ fetched evs = groups)
   ∨ (∃ pre rg_name post evs_pre drift_report1 w1,
         groups = pre ++ rg_name :: post
         ∧ runs_through CONFIG pre drift_report w evs_pre drift_report1 w1
         ∧ (check_group CONFIG rg_name drift_report1 w1).2 = Break
         ∧ fetched (group_loop CONFIG groups drift_report w).1.2 = pre ++ [rg_name]))
  ∧ listed (group_loop CONFIG groups drift_report w).1.2
    `sublist_of` fetched (group_loop CONFIG groups drift_report w).1.2
  ∧ printed (group_loop CONFIG groups drift_report w).1.2 = [].
Proof.
  pose proof (group_loop_shape groups drift_report w) as (_ & H2 & H3 & _).
  split; [|auto].
  destruct (group_loop_cases groups drift_report w)
    as [(evs & drift_report' & w' & Hrun & Hloop)
       |(pre & rg_name & post & evs_pre & drift_report1 & w1
         & Hgroups & Hrun & Hbreak & Hloop)].
  - left. exists evs, drift_report', w'.
    split; [done|]. split; [done|]. by eapply runs_through_fetched.
  - right. exists pre, rg_name, post, evs_pre, drift_report1, w1.
    split; [done|]. split; [done|]. split; [done|].
    rewrite Hloop. cbn [fst snd].
    pose proof (check_group_shape rg_name drift_report1 w1) as (Hf & _).
    pose proof (runs_through_fetched _ _ _ _ _ _ Hrun) as Hpre.
    unfold fetched in *. by rewrite omap_app, Hf, Hpre.
Qed.

(** X5.  For a group that is found but whose object has no attribute
    [provisioning_state], the read of the state raises: the error is logged
    as an unexpected one, the resources of the group are not listed, no
    finding is appended, and the loop goes on with the remaining groups. *)
Theorem found_group_without_state (rg_name : string) (drift_report : list dict)
    (w w1 : World) (rg : ResourceGroup) :
  resource_groups_get rg_name w = (w1, inr rg) ->
  provisioning_state rg = None ->
  check_group CONFIG rg_name drift_report w
  = (w1,
     [Log INFO ("Checking Resource Group: " +:+ rg_name);
      GetGroup rg_name;
      Log ERROR ("Unexpected error checking " +:+ rg_name
                 +:+ ": 'ResourceGroup' object has no attribute 'provisioning_state'")],
     drift_report,
     Continue)
  ∧ ∀ rest : list string,
      group_loop CONFIG (rg_name :: rest) drift_report w
      = let '(w2, evs, drift_report2) := group_loop CONFIG rest drift_report w1 in
        (w2,
         [Log INFO ("Checking Resource Group: " +:+ rg_name);
          GetGroup rg_name;
          Log ERROR ("Unexpected error checking " +:+ rg_name
                     +:+ ": 'ResourceGroup' object has no attribute 'provisioning_state'")]
         ++ evs,
         drift_report2).
Proof.
  intros Hget Hstate.
  assert (check_group CONFIG rg_name drift_report w
          = (w1,
             [Log INFO ("Checking Resource Group: " +:+ rg_name);
              GetGroup rg_name;
              Log ERROR ("Unexpected error checking " +:+ rg_name
                         +:+ ": 'ResourceGroup' object has no attribute 'provisioning_state'")],
             drift_report, Continue)) as Hgroup.
  { unfold check_group. by rewrite Hget, Hstate. }
  split; [exact Hgroup|].
  intros rest. cbn [group_loop]. by rewrite Hgroup.
Qed.

(** X6.  The loop stops at a group exactly when the provider rejects the
    authentication while that group is fetched or listed; no other exception,
    and no finding, ends the loop. *)
Theorem break_only_on_rejection (rg_name : string) (drift_report : list dict)
    (w : World) :
  (check_group CONFIG rg_name drift_report w).2 = Break
  ↔ ∃ state resources,
      auth_rejected rg_name w state resources
        (check_group CONFIG rg_name drift_report w).1.1.1.
Proof.
  split.
  - unfold check_group, handle_exception.
    destruct (resource_groups_get rg_name w) as [w1 [e|rg]] eqn:Hget.
    + destruct (is_ResourceNotFoundError e); [done|].
      destruct (is_ClientAuthenticationError e) eqn:He; [|done].
      intros _. exists None, []. by eapply rejected_on_get.
    + destruct (provisioning_state rg) as [state|] eqn:Hstate; [|done].
      destruct (list_by_resource_group rg_name w1) as [w2 [resources [e|]]] eqn:Hlist;
        [|done].
      destruct (is_ClientAuthenticationError e) eqn:He; [|done].
      intros _. exists (Some state), resources.
      by eapply rejected_on_list.
  - intros (state & resources & Hrej).
    pose proof (check_group_rejected CONFIG rg_name drift_report w _ _ _ Hrej) as Heq.
    by rewrite Heq.
Qed.


(** X8.  Errors are logged, not reported: when the authentication passes but
    every fetch of a group raises an exception other than not-found, no
    resource is listed, no finding is recorded, and the run prints the line
    that says all is compliant. *)
Theorem provider_errors_report_compliant (w0 w1 : World) (u : unit) :
  (∀ rg_name w, ∃ w' e,
      resource_groups_get rg_name w = (w', inl e)
      ∧ is_ResourceNotFoundError e = false) ->
  authenticate (SUBSCRIPTION_ID CONFIG) w0 = (w1, inr u) ->
  ∃ w' evs,
    check_azure_drift CONFIG w0
    = (w',
       [Log INFO "--- Starting Azure Drift Check ---"] ++ evs
       ++ [Print (nl +:+ "✅ All checked resources are IN_SYNC and Compliant.")])
    ∧ listed evs = []
    ∧ printed evs = [].
Proof.
  intros Hdown Hauth.
  assert (∀ groups w, ∃ w' evs,
             group_loop CONFIG groups [] w = (w', evs, [])
             ∧ listed evs = [] ∧ printed evs = []) as Hloop.
  { induction groups as [|rg_name rest IH]; intros w.
    - by exists w, [].
    - destruct (Hdown rg_name w) as (w2 & e & Hget & He).
      cbn [group_loop]. unfold check_group, handle_exception. rewrite Hget, He.
      destruct (is_ClientAuthenticationError e).
      + by eexists _, _.
      + destruct (IH w2) as (w3 & evs & -> & Hl & Hp).
        eexists _, _. split; [reflexivity|].
        unfold listed, printed in *. rewrite !omap_app, Hl, Hp. done. }
  destruct (Hloop (RESOURCE_GROUPS CONFIG) w1) as (w' & evs & Heq & Hl & Hp).
  exists w', evs. unfold check_azure_drift. by rewrite Hauth, Heq.
Qed.

(** X9.  A run whose startup authentication fails logs the failure, asks the
    provider about no group and prints nothing.  Every other run prints the
    report once, after the loop, from the findings the loop ends with: the
    four lines of the drift report when there is a finding, the compliant
    line when there is none. *)
Theorem report_printed_once (w0 : World) :
  match authenticate (SUBSCRIPTION_ID CONFIG) w0 with
  | (w1, inl e) =>
      check_azure_drift CONFIG w0
      = (w1,
         [Log INFO "--- Starting Azure Drift Check ---";
          Log ERROR ("Authentication Failed. Run 'az login' in your terminal. Error: "
                     +:+ exn_str e)])
  | (w1, inr _) =>
      printed (check_azure_drift CONFIG w0).2
      = match (group_loop CONFIG (RESOURCE_GROUPS CONFIG) [] w1).2 with
        | [] => [nl +:+ "✅ All checked resources are IN_SYNC and Compliant."]
        | finding :: findings =>
            [nl +:+ repeat_char "=" 30;
             "⚠️  DRIFT DETECTED REPORT";
             repeat_char "=" 30;
             json_dumps_indent2 (finding :: findings)]
        end
  end.
Proof.
  unfold check_azure_drift.
  destruct (authenticate (SUBSCRIPTION_ID CONFIG) w0) as [w1 [e|u]]; [done|].
  pose proof (group_loop_shape (RESOURCE_GROUPS CONFIG) [] w1) as (_ & _ & Hp & _).
  destruct (group_loop CONFIG (RESOURCE_GROUPS CONFIG) [] w1)
    as [[w2 evs] drift_report].
  cbn [fst snd] in *. unfold printed in *. rewrite !omap_app, Hp.
  by destruct drift_report.
Qed.

End Runs.

Lemma found_group_without_state_witness :
  check_group (H := Fake.azure Fake.found_script) CONFIG "rg-production-app-001" [] 0
  = (1,
     [Log INFO "Checking Resource Group: rg-production-app-001";
      GetGroup "rg-production-app-001";
      Log ERROR
        "Unexpected error checking rg-production-app-001: 'ResourceGroup' object has no attribute 'provisioning_state'"],
     [],
     Continue).
Proof.
  apply (proj1 (found_group_without_state (H := Fake.azure Fake.found_script) CONFIG
                  "rg-production-app-001" [] 0 1 {| provisioning_state := None |}
                  eq_refl eq_refl)).
Defined.

Lemma break_only_on_rejection_witness :
  (check_group (H := Fake.azure Fake.azure_script) CONFIG "rg-production-db-001" [] 0).2
  = Break.
Proof.
  apply (proj2 (break_only_on_rejection (H := Fake.azure Fake.azure_script) CONFIG
                  "rg-production-db-001" [] 0)).
  exists None, [].
  eapply (rejected_on_get (H := Fake.azure Fake.azure_script)
            "rg-production-db-001" 0 1); reflexivity.
Defined.


Lemma provider_errors_report_compliant_witness :
  ∃ w' evs,
    check_azure_drift (H := Fake.azure_down) (H0 := Fake.text) CONFIG 0
    = (w',
       [Log INFO "--- Starting Azure Drift Check ---"] ++ evs
       ++ [Print (nl +:+ "✅ All checked resources are IN_SYNC and Compliant.")])
    ∧ listed evs = []
    ∧ printed evs = [].
Proof.
  apply (provider_errors_report_compliant (H := Fake.azure_down) (H0 := Fake.text)
           CONFIG 0 1 tt).
  - intros rg_name w. exists (S w), Fake.service_unavailable. split; reflexivity.
  - reflexivity.
Defined.

End AuditorProofs.

(* ===================================================================== *)
(** * Properties of the Stack Drift Notifier *)
(* ===================================================================== *)

Module NotifierProofs.
Import Notifier.

(** ** Stack-name cleaning *)

Lemma split_nonempty (c : ascii) (s : string) : split c s ≠ [].
Proof.
  destruct s as [|x s]; simpl; [done|].
  destruct (Ascii.eqb x c); [done|]. by destruct (split c s).
Qed.

Lemma split_app_sep (c : ascii) (a b : string) :
  split c (a +:+ String c b) = split c a ++ split c b.
Proof.
  induction a as [|x a IH]; simpl.
  - by rewrite Ascii.eqb_refl.
  - destruct (Ascii.eqb x c); [by rewrite IH|].
    rewrite IH. pose proof (split_nonempty c a). by destruct (split c a).
Qed.

Lemma split_no_sep (c : ascii) (s : string) :
  contains c s = false -> split c s = [s].
Proof.
  induction s as [|x s IH]; cbn [contains split]; [done|].
  destruct (Ascii.eqb x c); [done|]. intros Hs. by rewrite IH.
Qed.

Lemma contains_app_sep (c : ascii) (a b : string) :
  contains c (a +:+ String c b) = true.
Proof.
  induction a as [|x a IH]; simpl.
  - by rewrite Ascii.eqb_refl.
  - by destruct (Ascii.eqb x c).
Qed.

Lemma getitem_neg2_app (l : list string) (x y : string) :
  getitem_neg2 (l ++ [x; y]) = inr x.
Proof.
  induction l as [|a l IH]; [done|].
  cbn [app]. destruct l as [|b l]; [done|].
  destruct l as [|b' l]; [done|]. exact IH.
Qed.

Lemma contains_split_length (c : ascii) (s : string) :
  contains c s = true -> 2 <= length (split c s).
Proof.
  assert (∀ t, 1 <= length (split c t)) as Hone.
  { intros [|y t]; cbn [split length]; [lia|].
    destruct (Ascii.eqb y c); [cbn; lia|]. destruct (split c t); cbn; lia. }
  induction s as [|x s IH]; cbn [contains split]; [done|].
  destruct (Ascii.eqb x c).
  - intros _. specialize (Hone s). cbn [length]. lia.
  - intros Hs. specialize (IH Hs). destruct (split c s); cbn [length] in *; lia.
Qed.

Lemma getitem_neg2_long (l : list string) :
  2 <= length l -> ∃ x, getitem_neg2 l = inr x.
Proof.
  induction l as [|a l IH]; cbn [length]; [lia|]. intros Hl.
  destruct l as [|b l]; [cbn in Hl; lia|].
  destruct l as [|b' l]; [by exists a|].
  apply IH. cbn. lia.
Qed.

(** The cleaning never raises. *)
Lemma clean_stack_name_total (stack_name : string) :
  ∃ clean, clean_stack_name stack_name = inr clean.
Proof.
  unfold clean_stack_name. destruct (contains "/" stack_name) eqn:Hc.
  - by apply getitem_neg2_long, contains_split_length.
  - by exists stack_name.
Qed.

(** C7.  Cleaning an identifier of the form [<path>/<name>/<id>], such as
    the ARN [.../DynamoDB/eac28c70-...], yields the segment [<name>], here
    ["DynamoDB"]; cleaning an identifier without ['/'], such as ["MyStack"],
    returns it unchanged. *)
Theorem clean_stack_name_segment :
  (∀ path segment id : string,
      contains "/" segment = false -> contains "/" id = false ->
      clean_stack_name (path +:+ "/" +:+ segment +:+ "/" +:+ id) = inr segment)
  ∧ clean_stack_name
      "arn:aws:cloudformation:ap-south-1:471112828084:stack/DynamoDB/eac28c70-f209-11ee-8b09-0a02e01a9aa3"
    = inr "DynamoDB"
  ∧ (∀ stack_name : string,
        contains "/" stack_name = false -> clean_stack_name stack_name = inr stack_name)
  ∧ clean_stack_name "MyStack" = inr "MyStack".
Proof.
  split; [|split; [reflexivity|split; [|reflexivity]]].
  - intros path segment id Hsegment Hid. unfold clean_stack_name.
    change (path +:+ "/" +:+ segment +:+ "/" +:+ id)
      with (path +:+ String "/" (segment +:+ String "/" id)).
    rewrite contains_app_sep, !split_app_sep.
    rewrite (split_no_sep _ _ Hsegment), (split_no_sep _ _ Hid).
    apply getitem_neg2_app.
  - intros stack_name Hs. unfold clean_stack_name. by rewrite Hs.
Qed.

(** The two general statements, on the second configured stack and on a bare
    name. *)
Lemma clean_stack_name_segment_witness :
  clean_stack_name
    ("arn:aws:cloudformation:ap-south-1:471112828084:stack" +:+ "/" +:+ "EC2instance"
     +:+ "/" +:+ "74c0e490-f209-11ee-a0af-0aac48631e59")
  = inr "EC2instance"
  ∧ clean_stack_name "S3Bucket" = inr "S3Bucket".
Proof.
  split.
  - apply (proj1 clean_stack_name_segment); reflexivity.
  - apply (proj1 (proj2 (proj2 clean_stack_name_segment))); reflexivity.
Defined.

(** ** Running the handler's computations *)

Section Handler.
Context {World : Type} `{Provider World} `{Text}.
Variable CONFIG : Config.

Lemma after_nil {R} (x : World * list event * R) : after [] x = x.
Proof. by destruct x as [[? ?] ?]. Qed.

Lemma after_after {R} (t1 t2 : list event) (x : World * list event * R) :
  after t1 (after t2 x) = after (t1 ++ t2) x.
Proof. destruct x as [[? ?] ?]. cbn. by rewrite app_assoc. Qed.

Lemma bind_logger {B} (lvl : level) (msg : string) (k : unit -> M B) (w : World) :
  bind (logger lvl msg) k w = after [Log lvl msg] (k tt w).
Proof. reflexivity. Qed.

Lemma bind_ret {A B} (a : A) (k : A -> M B) (w : World) : bind (ret a) k w = k a w.
Proof. unfold bind, ret. apply after_nil. Qed.

Lemma bind_run {A B} (m : M A) (k : A -> M B) (w w1 : World) (t1 : list event) (a : A) :
  m w = (w1, t1, inr a) -> bind m k w = after t1 (k a w1).
Proof. intros Hm. unfold bind. by rewrite Hm. Qed.

Lemma bind_run_raise {A B} (m : M A) (k : A -> M B) (w w1 : World)
    (t1 : list event) (e : exn) :
  m w = (w1, t1, inl e) -> bind m k w = (w1, t1, inl e).
Proof. intros Hm. unfold bind. by rewrite Hm. Qed.

Lemma publishes_app (t1 t2 : list event) :
  publishes (t1 ++ t2) = publishes t1 ++ publishes t2.
Proof. apply List.filter_app. Qed.

Lemma polls_app (t1 t2 : list event) : polls (t1 ++ t2) = polls t1 + polls t2.
Proof. unfold polls. by rewrite List.filter_app, length_app. Qed.

(** One turn of the polling loop. *)
Lemma poll_loop_S (stack_name drift_detection_id : string) (n : nat) (w : World) :
  poll_loop stack_name drift_detection_id (S n) w
  = match describe_stack_drift_detection_status drift_detection_id w with
    | (w1, inl e) => (w1, [Poll drift_detection_id], inl e)
    | (w1, inr r) =>
        if String.eqb (DetectionStatus r) "DETECTION_COMPLETE" then
          match StackDriftStatus r with
          | Some verdict =>
              (w1,
               [Poll drift_detection_id;
                Log INFO ("Detection complete. Stack Status: " +:+ verdict)],
               inr (LoopBreak (DetectionStatus r) (Some verdict)))
          | None =>
              (w1, [Poll drift_detection_id],
               inl (Exception KeyError "'StackDriftStatus'"))
          end
        else if String.eqb (DetectionStatus r) "DETECTION_FAILED" then
          (w1,
           [Poll drift_detection_id;
            Log ERROR ("Detection failed for stack " +:+ stack_name +:+ ": "
                       +:+ str_opt (DetectionStatusReason r))],
           inr (LoopBreak (DetectionStatus r) None))
        else
          after [Poll drift_detection_id; Sleep 2]
            (poll_loop stack_name drift_detection_id n w1)
    end.
Proof.
  cbn [poll_loop]. unfold bind at 1. unfold call at 1.
  destruct (describe_stack_drift_detection_status drift_detection_id w)
    as [w1 [e|r]]; [done|].
  destruct (String.eqb (DetectionStatus r) "DETECTION_COMPLETE").
  - destruct (StackDriftStatus r) as [verdict|]; done.
  - destruct (String.eqb (DetectionStatus r) "DETECTION_FAILED"); [done|].
    rewrite bind_logger || unfold time_sleep, emit, bind; cbn.
    by destruct (poll_loop stack_name drift_detection_id n w1) as [[? ?] ?].
Qed.

(** The polling loop publishes nothing and polls at most as often as it has
    attempts. *)
Lemma poll_loop_trace (stack_name drift_detection_id : string) (n : nat) (w : World) :
  publishes (poll_loop stack_name drift_detection_id n w).1.2 = []
  ∧ polls (poll_loop stack_name drift_detection_id n w).1.2 <= n.
Proof.
  revert w. induction n as [|n IH]; intros w; [cbn; split; [done|lia]|].
  rewrite poll_loop_S.
  destruct (describe_stack_drift_detection_status drift_detection_id w)
    as [w1 [e|r]]; [cbn; split; [done|lia]|].
  destruct (String.eqb (DetectionStatus r) "DETECTION_COMPLETE").
  - destruct (StackDriftStatus r); cbn; split; done || lia.
  - destruct (String.eqb (DetectionStatus r) "DETECTION_FAILED");
      [cbn; split; done || lia|].
    specialize (IH w1).
    destruct (poll_loop stack_name drift_detection_id n w1) as [[w2 t2] r2].
    cbn in *. destruct IH as [IH1 IH2]. split; [done|].
    unfold polls in *. cbn. lia.
Qed.

Lemma terminal_false (detection_status : string) :
  terminal detection_status = false ->
  String.eqb detection_status "DETECTION_COMPLETE" = false
  ∧ String.eqb detection_status "DETECTION_FAILED" = false.
Proof. unfold terminal. apply orb_false_elim. Qed.

(** The loop breaks with the verdict when the detection completes. *)
Lemma poll_loop_completes (stack_name drift_detection_id : string) (n : nat)
    (w w' : World) (r : status_resp) (verdict : string) :
  polls_until drift_detection_id n w r w' ->
  DetectionStatus r = "DETECTION_COMPLETE" ->
  StackDriftStatus r = Some verdict ->
  ∃ t, poll_loop stack_name drift_detection_id n w
       = (w', t, inr (LoopBreak "DETECTION_COMPLETE" (Some verdict))).
Proof.
  intros Hpolls Hstatus Hverdict.
  induction Hpolls as [n w w' r Hdescribe _|n w w1 r1 r w' Hdescribe Hr1 _ IH];
    rewrite poll_loop_S, Hdescribe.
  - rewrite Hstatus, Hverdict. cbn. eauto.
  - apply terminal_false in Hr1 as [-> ->].
    destruct (IH Hstatus Hverdict) as [t ->]. cbn. eauto.
Qed.


(** The loop uses up its attempts when no answer is terminal. *)
Lemma poll_loop_pending (stack_name drift_detection_id : string) (n : nat)
    (w w' : World) :
  stays_pending drift_detection_id n w w' ->
  ∃ t, poll_loop stack_name drift_detection_id n w = (w', t, inr LoopElse)
       ∧ polls t = n.
Proof.
  induction 1 as [w|n w w1 r w' Hdescribe Hr _ [t [IH Hpolls]]].
  - by exists [].
  - rewrite poll_loop_S, Hdescribe.
    apply terminal_false in Hr as [-> ->]. rewrite IH. cbn.
    eexists. split; [reflexivity|]. unfold polls in *. cbn. by rewrite Hpolls.
Qed.

(** ** After the polling *)

Lemma drift_loop_app (drifts : list drift) (drift_details : list dict) :
  drift_loop drifts drift_details = drift_details ++ (drift_detail <$> drifts).
Proof.
  revert drift_details.
  induction drifts as [|d drifts IH]; intros drift_details; cbn.
  - by rewrite app_nil_r.
  - by rewrite IH, <- app_assoc.
Qed.

(** Every record of every page is appended, in order. *)
Lemma page_loop_records (pages : list page) (drift_details : list dict) :
  page_loop pages drift_details = drift_details ++ (drift_detail <$> records pages).
Proof.
  revert drift_details.
  induction pages as [|p pages IH]; intros drift_details; unfold records; cbn.
  - by rewrite app_nil_r.
  - rewrite IH, drift_loop_app, fmap_app, <- app_assoc. done.
Qed.

Lemma after_polling_else (stack_name : string) (w : World) :
  after_polling CONFIG stack_name LoopElse w
  = (w, [Log WARNING ("Timeout waiting for drift detection on stack: " +:+ stack_name)],
     inr None).
Proof. reflexivity. Qed.

Lemma after_polling_failed (stack_name : string) (w : World) :
  after_polling CONFIG stack_name (LoopBreak "DETECTION_FAILED" None) w
  = (w, [], inr None).
Proof. reflexivity. Qed.

Lemma after_polling_not_drifted (stack_name verdict : string) (w : World) :
  verdict ≠ "DRIFTED" ->
  ∃ clean,
    clean_stack_name stack_name = inr clean
    ∧ after_polling CONFIG stack_name
        (LoopBreak "DETECTION_COMPLETE" (Some verdict)) w
      = (w, [Log INFO ("Stack " +:+ clean +:+ " is IN_SYNC. No notification sent.")],
         inr (Some (clean +:+ ": " +:+ verdict))).
Proof.
  intros Hverdict. destruct (clean_stack_name_total stack_name) as [clean Hclean].
  exists clean. split; [done|].
  unfold after_polling. cbn [String.eqb Ascii.eqb Bool.eqb negb].
  rewrite bool_decide_eq_false_2 by congruence.
  rewrite bind_ret. unfold lift, bind. rewrite Hclean. reflexivity.
Qed.

Lemma after_polling_drifted (stack_name : string) (w : World) :
  ∃ clean,
    clean_stack_name stack_name = inr clean
    ∧ after_polling CONFIG stack_name
        (LoopBreak "DETECTION_COMPLETE" (Some "DRIFTED")) w
      = match get_paginator "describe_stack_resource_drifts" w with
        | (w0, inl e) =>
            (w0, [GetPaginator "describe_stack_resource_drifts"], inl e)
        | (w0, inr _) =>
            match paginate stack_name ["MODIFIED"; "DELETED"] w0 with
            | (w1, (pages, Some e)) =>
                (w1,
                 [GetPaginator "describe_stack_resource_drifts";
                  Paginate stack_name ["MODIFIED"; "DELETED"]],
                 inl e)
            | (w1, (pages, None)) =>
                let message := message_body clean "DRIFTED" (page_loop pages []) in
                let sent :=
                  Publish (SNS_TOPIC_ARN CONFIG) message (message_subject clean) in
                match publish (SNS_TOPIC_ARN CONFIG) message (message_subject clean) w1
                with
                | (w2, inl e) =>
                    (w2,
                     [GetPaginator "describe_stack_resource_drifts";
                      Paginate stack_name ["MODIFIED"; "DELETED"]; sent],
                     inl e)
                | (w2, inr _) =>
                    (w2,
                     [GetPaginator "describe_stack_resource_drifts";
                      Paginate stack_name ["MODIFIED"; "DELETED"]; sent],
                     inr (Some (clean +:+ ": DRIFTED")))
                end
            end
        end.
Proof.
  destruct (clean_stack_name_total stack_name) as [clean Hclean].
  exists clean. split; [done|].
  unfold after_polling. cbn [String.eqb Ascii.eqb Bool.eqb negb].
  rewrite bool_decide_eq_true_2 by done.
  unfold fetch_drift_details, bind, call, lift.
  destruct (get_paginator "describe_stack_resource_drifts" w) as [w0 [e|u0]];
    [done|].
  destruct (paginate stack_name ["MODIFIED"; "DELETED"] w0) as [w1 [pages [e|]]];
    [done|].
  rewrite Hclean. cbn.
  destruct (publish _ _ _ w1) as [w2 [e|u]]; done.
Qed.

(** Nothing after the polling loop polls. *)
Lemma after_polling_no_poll (stack_name : string) (p : polled) (w : World) :
  polls (after_polling CONFIG stack_name p w).1.2 = 0.
Proof.
  destruct p as [detection_status stack_drift_status|]; [|done].
  unfold after_polling.
  destruct (negb (String.eqb detection_status "DETECTION_COMPLETE")); [done|].
  destruct (bool_decide (stack_drift_status = Some "DRIFTED")).
  - unfold fetch_drift_details, bind, call, lift.
    destruct (get_paginator "describe_stack_resource_drifts" w) as [w0 [e|u0]];
      [done|].
    destruct (paginate stack_name ["MODIFIED"; "DELETED"] w0) as [w1 [pages [e|]]];
      [done|].
    destruct (clean_stack_name stack_name); [done|]. cbn.
    destruct (publish _ _ _ w1) as [w2 [e|u]]; done.
  - rewrite bind_ret. unfold lift, bind.
    destruct (clean_stack_name stack_name); done.
Qed.

(** ** One stack *)

Lemma stack_body_eq (stack_name : string) (w : World) :
  stack_body CONFIG stack_name w
  = match detect_stack_drift stack_name w with
    | (w1, inl e) =>
        (w1,
         [Log INFO ("--- Processing stack: " +:+ stack_name +:+ " ---");
          Detect stack_name],
         inl e)
    | (w1, inr detect_resp) =>
        after
          [Log INFO ("--- Processing stack: " +:+ stack_name +:+ " ---");
           Detect stack_name;
           Log INFO ("Drift detection initiated. ID: "
                     +:+ StackDriftDetectionId detect_resp)]
          (bind (poll_loop stack_name (StackDriftDetectionId detect_resp) max_retries)
             (after_polling CONFIG stack_name) w1)
    end.
Proof.
  unfold stack_body. rewrite bind_logger. unfold bind at 1. unfold call at 1.
  destruct (detect_stack_drift stack_name w) as [w1 [e|detect_resp]]; [done|].
  rewrite bind_logger, !after_after. reflexivity.
Qed.

(** The body of the [try], once the outcome of the polling is known. *)
Lemma stack_body_polled (stack_name : string) (w w1 w2 : World)
    (detect_resp : detect_resp) (t : list event) (p : polled) :
  detect_stack_drift stack_name w = (w1, inr detect_resp) ->
  poll_loop stack_name (StackDriftDetectionId detect_resp) max_retries w1
  = (w2, t, inr p) ->
  stack_body CONFIG stack_name w
  = after
      ([Log INFO ("--- Processing stack: " +:+ stack_name +:+ " ---");
        Detect stack_name;
        Log INFO ("Drift detection initiated. ID: "
                  +:+ StackDriftDetectionId detect_resp)] ++ t)
      (after_polling CONFIG stack_name p w2).
Proof.
  intros Hdetect Hpoll. rewrite stack_body_eq, Hdetect.
  rewrite (bind_run _ _ _ _ _ _ Hpoll). apply after_after.
Qed.

Lemma process_stack_returns (stack_name : string) (w w1 : World) (t : list event)
    (entry : option string) :
  stack_body CONFIG stack_name w = (w1, t, inr entry) ->
  process_stack CONFIG stack_name w = (w1, t, inr entry).
Proof. intros Hbody. unfold process_stack, try_except. by rewrite Hbody. Qed.

Lemma process_stack_catches (stack_name : string) (w w1 : World) (t : list event)
    (e : exn) :
  stack_body CONFIG stack_name w = (w1, t, inl e) ->
  process_stack CONFIG stack_name w
  = (w1,
     t ++ [Log ERROR ("Error processing stack " +:+ stack_name +:+ ": " +:+ exn_str e)],
     inr None).
Proof. intros Hbody. unfold process_stack, try_except. by rewrite Hbody. Qed.

(** No exception leaves the [try]. *)
Lemma process_stack_total (stack_name : string) (w : World) :
  ∃ w1 t entry, process_stack CONFIG stack_name w = (w1, t, inr entry).
Proof.
  destruct (stack_body CONFIG stack_name w) as [[w1 t] [e|entry]] eqn:Hbody.
  - rewrite (process_stack_catches _ _ _ _ _ Hbody). eauto.
  - rewrite (process_stack_returns _ _ _ _ _ Hbody). eauto.
Qed.

(** A stack is polled at most [max_retries] times. *)
Lemma process_stack_polls (stack_name : string) (w : World) :
  polls (process_stack CONFIG stack_name w).1.2 <= max_retries.
Proof.
  assert (polls (stack_body CONFIG stack_name w).1.2 <= max_retries) as Hbody.
  { rewrite stack_body_eq.
    destruct (detect_stack_drift stack_name w) as [w1 [e|detect_resp]];
      [cbn; lia|].
    unfold bind.
    pose proof (poll_loop_trace stack_name (StackDriftDetectionId detect_resp)
                  max_retries w1) as [_ Hpolls].
    destruct (poll_loop stack_name (StackDriftDetectionId detect_resp) max_retries w1)
      as [[w2 t] [e|p]]; cbn [fst snd] in Hpolls.
    - cbn [after fst snd]. rewrite polls_app. cbn. exact Hpolls.
    - pose proof (after_polling_no_poll stack_name p w2) as Hafter.
      destruct (after_polling CONFIG stack_name p w2) as [[w3 t3] r3].
      cbn [after fst snd] in *. rewrite !polls_app, Hafter. cbn. lia. }
  destruct (stack_body CONFIG stack_name w) as [[w1 t] [e|entry]] eqn:Heq.
  - rewrite (process_stack_catches _ _ _ _ _ Heq). cbn [fst snd] in *.
    rewrite polls_app. cbn. lia.
  - by rewrite (process_stack_returns _ _ _ _ _ Heq).
Qed.

(** ** The loop over the stacks *)

Lemma stack_loop_cons (stack_name : string) (rest results : list string)
    (w w1 : World) (t : list event) (entry : option string) :
  process_stack CONFIG stack_name w = (w1, t, inr entry) ->
  stack_loop CONFIG (stack_name :: rest) results w
  = after t (stack_loop CONFIG rest
               (match entry with
                | Some line => results ++ [line]
                | None => results
                end) w1).
Proof. intros Hstack. cbn [stack_loop]. by rewrite (bind_run _ _ _ _ _ _ Hstack). Qed.

(** The loop never raises, and only ever appends to [results]. *)
Lemma stack_loop_total (stack_names results : list string) (w : World) :
  ∃ w' t more, stack_loop CONFIG stack_names results w = (w', t, inr (results ++ more)).
Proof.
  revert results w.
  induction stack_names as [|stack_name rest IH]; intros results w.
  - exists w, [], []. cbn. by rewrite app_nil_r.
  - destruct (process_stack_total stack_name w) as (w1 & t & entry & Hstack).
    rewrite (stack_loop_cons _ _ _ _ _ _ _ Hstack).
    destruct entry as [line|].
    + destruct (IH (results ++ [line]) w1) as (w' & t' & more & ->).
      exists w', (t ++ t'), (line :: more). cbn. by rewrite <- app_assoc.
    + destruct (IH results w1) as (w' & t' & more & ->).
      exists w', (t ++ t'), more. done.
Qed.

(** An initial stretch of the loop can be split off. *)
Lemma stack_loop_app (pre rest results results1 : list string) (w w1 : World)
    (t1 : list event) :
  stack_loop CONFIG pre results w = (w1, t1, inr results1) ->
  stack_loop CONFIG (pre ++ rest) results w
  = after t1 (stack_loop CONFIG rest results1 w1).
Proof.
  revert results w t1.
  induction pre as [|stack_name pre IH]; intros results w t1 Hpre.
  - cbn in Hpre. injection Hpre as <- <- <-. cbn. by rewrite after_nil.
  - destruct (process_stack_total stack_name w) as (w2 & t2 & entry & Hstack).
    cbn [app]. rewrite (stack_loop_cons _ (pre ++ rest) _ _ _ _ _ Hstack).
    rewrite (stack_loop_cons _ pre _ _ _ _ _ Hstack) in Hpre.
    destruct (stack_loop CONFIG pre _ w2) as [[w3 t3] r3] eqn:Hrest.
    cbn in Hpre. injection Hpre as <- <- ->.
    rewrite (IH _ _ _ Hrest). by rewrite after_after.
Qed.

(** ** Properties of one stack and of the run *)

(** What a stack whose detection completes leaves in the trace before the
    part that follows the polling. *)
Lemma stack_body_completes (stack_name verdict : string) (w w2 : World) :
  detection_completes stack_name w verdict w2 ->
  ∃ t, publishes t = []
       ∧ stack_body CONFIG stack_name w
         = after t (after_polling CONFIG stack_name
                      (LoopBreak "DETECTION_COMPLETE" (Some verdict)) w2).
Proof.
  intros (w1 & detect_resp & r & Hdetect & Hpolls & Hstatus & Hverdict).
  destruct (poll_loop_completes stack_name _ _ _ _ _ _ Hpolls Hstatus Hverdict)
    as [tp Hpoll].
  rewrite (stack_body_polled _ _ _ _ _ _ _ Hdetect Hpoll).
  eexists. split; [|reflexivity].
  pose proof (poll_loop_trace stack_name (StackDriftDetectionId detect_resp)
                max_retries w1) as [Hquiet _].
  rewrite Hpoll in Hquiet. cbn [fst snd] in Hquiet.
  rewrite publishes_app, Hquiet. reflexivity.
Qed.

(** The handler once the two clients are built. *)
Lemma lambda_handler_built {E C : Type} (event : E) (context : C)
    (w0 w1 w2 w' : World) (t : list Notifier.event) (results : list string) :
  boto3_client "cloudformation" w0 = (w1, inr tt) ->
  boto3_client "sns" w1 = (w2, inr tt) ->
  stack_loop CONFIG (STACK_ARNS CONFIG) [] w2 = (w', t, inr results) ->
  lambda_handler CONFIG event context w0
  = (w', [Client "cloudformation"; Client "sns"] ++ t,
     inr {| statusCode := 200;
            body := json_dumps ("Process complete. Results: "
                                +:+ format_list results) |}).
Proof.
  intros Hcf Hsns Hloop. unfold lambda_handler, bind, call.
  rewrite Hcf. cbn [after]. rewrite Hsns. cbn [after]. rewrite Hloop.
  cbn. by rewrite app_nil_r.
Qed.

(** C2.  In a run whose two clients are built, for a configured stack whose
    detection completes with the verdict IN_SYNC, processing the stack
    publishes nothing, the entry ["<cleaned stack name>: IN_SYNC"] is
    appended to the results, and the body of the response the handler
    returns is the text rendered from a list that holds that entry, after
    the entries of the stacks before it and before those of the stacks
    after it. *)
Theorem in_sync_not_notified {E C : Type} (event : E) (context : C)
    (pre post : list string) (stack_name : string) (w00 w01 w0 w w' : World)
    (t_pre : list Notifier.event) (results_pre : list string) :
  boto3_client "cloudformation" w00 = (w01, inr tt) ->
  boto3_client "sns" w01 = (w0, inr tt) ->
  STACK_ARNS CONFIG = pre ++ stack_name :: post ->
  stack_loop CONFIG pre [] w0 = (w, t_pre, inr results_pre) ->
  detection_completes stack_name w "IN_SYNC" w' ->
  ∃ clean t t_post w_end more,
    clean_stack_name stack_name = inr clean
    ∧ process_stack CONFIG stack_name w = (w', t, inr (Some (clean +:+ ": IN_SYNC")))
    ∧ publishes t = []
    ∧ stack_loop CONFIG post (results_pre ++ [clean +:+ ": IN_SYNC"]) w'
      = (w_end, t_post, inr (results_pre ++ [clean +:+ ": IN_SYNC"] ++ more))
    ∧ lambda_handler CONFIG event context w00
      = (w_end,
         [Client "cloudformation"; Client "sns"] ++ t_pre ++ t ++ t_post,
         inr {| statusCode := 200;
                body := json_dumps
                          ("Process complete. Results: "
                           +:+ format_list
                                 (results_pre ++ [clean +:+ ": IN_SYNC"] ++ more)) |}).
Proof.
  intros Hcf Hsns Hstacks Hpre Hcompletes.
  destruct (stack_body_completes _ _ _ _ Hcompletes) as (t0 & Hquiet & Hbody).
  destruct (after_polling_not_drifted stack_name "IN_SYNC" w')
    as (clean & Hclean & Hafter); [discriminate|].
  rewrite Hafter in Hbody. cbn [after] in Hbody.
  pose proof (process_stack_returns _ _ _ _ _ Hbody) as Hstack.
  destruct (stack_loop_total post (results_pre ++ [clean +:+ ": IN_SYNC"]) w')
    as (w_end & t_post & more & Hpost).
  rewrite <- app_assoc in Hpost.
  exists clean. eexists _, t_post, w_end, more.
  split; [done|]. split; [exact Hstack|]. split.
  { rewrite publishes_app, Hquiet. reflexivity. }
  split; [exact Hpost|].
  apply (lambda_handler_built _ _ _ _ _ _ _ _ Hcf Hsns).
  rewrite Hstacks, (stack_loop_app _ _ _ _ _ _ _ Hpre).
  rewrite (stack_loop_cons _ _ _ _ _ _ _ Hstack).
  change (results_pre ++ [clean +:+ ": " +:+ "IN_SYNC"])
    with (results_pre ++ [clean +:+ ": IN_SYNC"]).
  by rewrite Hpost.
Qed.

(** A stack whose polling runs out of attempts. *)
Lemma process_stack_times_out (stack_name : string) (w w' : World) :
  detection_times_out stack_name w w' ->
  ∃ t,
    process_stack CONFIG stack_name w
    = (w',
       t ++ [Log WARNING ("Timeout waiting for drift detection on stack: "
                          +:+ stack_name)],
       inr None)
    ∧ polls t = max_retries
    ∧ publishes t = [].
Proof.
  intros (w1 & detect_resp & Hdetect & Hpending).
  destruct (poll_loop_pending stack_name _ _ _ _ Hpending) as (tp & Hpoll & Hpolls).
  pose proof (stack_body_polled _ _ _ _ _ _ _ Hdetect Hpoll) as Hbody.
  rewrite after_polling_else in Hbody. cbn [after] in Hbody.
  eexists. split; [exact (process_stack_returns _ _ _ _ _ Hbody)|]. split.
  - rewrite polls_app, Hpolls. reflexivity.
  - pose proof (poll_loop_trace stack_name (StackDriftDetectionId detect_resp)
                  max_retries w1) as [Hquiet _].
    rewrite Hpoll in Hquiet. cbn [fst snd] in Hquiet.
    rewrite publishes_app, Hquiet. reflexivity.
Qed.

(** C3.  A stack is polled at most 20 times.  When the detection is
    requested and none of the 20 polls is answered with a terminal status,
    the processing of the stack ends there: the 20 polls are made, the
    warning is the last thing logged, nothing is published, no entry is added
    to the results, and the loop goes on with the next stack. *)
Theorem polling_bounded (stack_name : string) (w : World) :
  polls (process_stack CONFIG stack_name w).1.2 <= 20
  ∧ ∀ w' : World,
      detection_times_out stack_name w w' ->
      ∃ t,
        process_stack CONFIG stack_name w
        = (w',
           t ++ [Log WARNING ("Timeout waiting for drift detection on stack: "
                              +:+ stack_name)],
           inr None)
        ∧ polls t = 20
        ∧ publishes t = []
        ∧ ∀ rest results : list string,
            stack_loop CONFIG (stack_name :: rest) results w
            = after (t ++ [Log WARNING ("Timeout waiting for drift detection on stack: "
                                        +:+ stack_name)])
                (stack_loop CONFIG rest results w').
Proof.
  split; [apply process_stack_polls|].
  intros w' Htimeout.
  destruct (process_stack_times_out _ _ _ Htimeout) as (t & Hstack & Hpolls & Hquiet).
  exists t. split; [exact Hstack|]. split; [exact Hpolls|]. split; [exact Hquiet|].
  intros rest results. by rewrite (stack_loop_cons _ _ _ _ _ _ _ Hstack).
Qed.

End Handler.

(** ** The scripted provider at work *)

(** A whole run over four stacks: one drifted, one in sync, one whose
    detection fails and one that never completes.  The client has no
    paginator for the drift records, so the drifted stack ends in the
    [except] clause: nothing is published and it gets no entry. *)
Example lambda_handler_run :
  (lambda_handler (H := Fake.aws Fake.aws_script None) (H0 := Fake.text)
     (Fake.aws_config [Fake.dynamo_arn; "MyStack"; "Broken"; "Slow"]) tt tt 0).2
  = inr {| statusCode := 200;
           body := "Process complete. Results: [MyStack: IN_SYNC]" |}
  ∧ publishes
      (lambda_handler (H := Fake.aws Fake.aws_script None) (H0 := Fake.text)
         (Fake.aws_config [Fake.dynamo_arn; "MyStack"; "Broken"; "Slow"]) tt tt 0).1.2
    = [].
Proof. vm_compute. split; reflexivity. Qed.

(** A stack the provider does not know, and the drifted stack: both end in
    the [except] clause, and the handler still returns. *)
Example lambda_handler_all_raise :
  lambda_handler (H := Fake.aws Fake.aws_script None)
    (H0 := Fake.text) (Fake.aws_config ["Unknown"; Fake.dynamo_arn]) tt tt 7
  = (3,
     [Client "cloudformation";
      Client "sns";
      Log INFO "--- Processing stack: Unknown ---";
      Detect "Unknown";
      Log ERROR "Error processing stack Unknown: Stack does not exist";
      Log INFO ("--- Processing stack: " +:+ Fake.dynamo_arn +:+ " ---");
      Detect Fake.dynamo_arn;
      Log INFO ("Drift detection initiated. ID: " +:+ Fake.dynamo_arn);
      Poll Fake.dynamo_arn; Sleep 2;
      Poll Fake.dynamo_arn; Sleep 2;
      Poll Fake.dynamo_arn;
      Log INFO "Detection complete. Stack Status: DRIFTED";
      GetPaginator "describe_stack_resource_drifts";
      Log ERROR ("Error processing stack " +:+ Fake.dynamo_arn
                 +:+ ": Operation cannot be paginated: describe_stack_resource_drifts")],
     inr {| statusCode := 200; body := "Process complete. Results: []" |}).
Proof. vm_compute. reflexivity. Qed.

(** Without a region no client is built, and the exception leaves the
    handler before any stack is looked at. *)
Example lambda_handler_no_region :
  lambda_handler (H := Fake.aws_no_region) (H0 := Fake.text)
    (Fake.aws_config ["MyStack"]) tt tt 0
  = (0, [Client "cloudformation"], inl Fake.no_region).
Proof. reflexivity. Qed.

Lemma MyStack_completes (w : nat) :
  detection_completes (H := Fake.aws Fake.aws_script None) "MyStack" w "IN_SYNC" 2.
Proof.
  exists 0, {| StackDriftDetectionId := "MyStack" |}, (Fake.complete "IN_SYNC").
  split; [reflexivity|]. split; [|split; reflexivity].
  eapply polls_until_later; [reflexivity|reflexivity|].
  eapply polls_until_now; reflexivity.
Defined.

Lemma dynamo_completes (w : nat) :
  detection_completes (H := Fake.aws Fake.aws_script None) Fake.dynamo_arn w "DRIFTED" 3.
Proof.
  exists 0, {| StackDriftDetectionId := Fake.dynamo_arn |}, (Fake.complete "DRIFTED").
  split; [reflexivity|]. split; [|split; reflexivity].
  eapply polls_until_later; [reflexivity|reflexivity|].
  eapply polls_until_later; [reflexivity|reflexivity|].
  eapply polls_until_now; reflexivity.
Defined.


Lemma Slow_times_out (w : nat) :
  detection_times_out (H := Fake.aws Fake.aws_script None) "Slow" w 20.
Proof.
  exists 0, {| StackDriftDetectionId := "Slow" |}.
  split; [reflexivity|].
  unfold max_retries.
  do 20 (eapply stays_pending_S; [reflexivity|reflexivity|]).
  apply stays_pending_O.
Defined.

(** A run over three stacks, the second of which is in sync. *)
Lemma in_sync_not_notified_witness :
  ∃ t t_post w_end more,
    process_stack (H := Fake.aws Fake.aws_script None) (H0 := Fake.text)
      (Fake.aws_config ["Broken"; "MyStack"; "Slow"]) "MyStack" 1
    = (2, t, inr (Some "MyStack: IN_SYNC"))
    ∧ publishes t = []
    ∧ lambda_handler (H := Fake.aws Fake.aws_script None) (H0 := Fake.text)
        (Fake.aws_config ["Broken"; "MyStack"; "Slow"]) tt tt 0
      = (w_end,
         [Client "cloudformation"; Client "sns"]
         ++ [Log INFO "--- Processing stack: Broken ---";
             Detect "Broken";
             Log INFO "Drift detection initiated. ID: Broken";
             Poll "Broken";
             Log ERROR "Detection failed for stack Broken: Internal failure"]
         ++ t ++ t_post,
         inr {| statusCode := 200;
                body := json_dumps (Text := Fake.text)
                          ("Process complete. Results: "
                           +:+ format_list (Text := Fake.text)
                                 ([] ++ ["MyStack: IN_SYNC"] ++ more)) |}).
Proof.
  destruct (in_sync_not_notified (H := Fake.aws Fake.aws_script None)
              (H0 := Fake.text) (Fake.aws_config ["Broken"; "MyStack"; "Slow"])
              tt tt ["Broken"] ["Slow"] "MyStack" 0 0 0 1 2
              [Log INFO "--- Processing stack: Broken ---";
               Detect "Broken";
               Log INFO "Drift detection initiated. ID: Broken";
               Poll "Broken";
               Log ERROR "Detection failed for stack Broken: Internal failure"]
              [] eq_refl eq_refl eq_refl eq_refl (MyStack_completes 1))
    as (clean & t & t_post & w_end & more & Hclean & Hstack & Hquiet & _ & Hrun).
  injection Hclean as <-.
  exists t, t_post, w_end, more.
  split; [exact Hstack|]. split; [exact Hquiet|exact Hrun].
Defined.

(** The stack of the script that never completes. *)
Lemma polling_bounded_witness :
  ∃ t,
    process_stack (H := Fake.aws Fake.aws_script None) (H0 := Fake.text)
      (Fake.aws_config ["Slow"]) "Slow" 0
    = (20, t ++ [Log WARNING "Timeout waiting for drift detection on stack: Slow"],
       inr None)
    ∧ polls t = 20
    ∧ publishes t = [].
Proof.
  destruct (proj2 (polling_bounded (H := Fake.aws Fake.aws_script None)
                     (H0 := Fake.text) (Fake.aws_config ["Slow"]) "Slow" 0)
              20 (Slow_times_out 0))
    as (t & Hstack & Hpolls & Hquiet & _).
  exists t. split; [exact Hstack|]. split; [exact Hpolls|exact Hquiet].
Defined.

(** ** Further properties of the Notifier *)

Lemma split_no_sep_inside (c : ascii) (s : string) :
  Forall (λ x, contains c x = false) (split c s).
Proof.
  induction s as [|a s IH]; simpl; [by repeat constructor|].
  destruct (Ascii.eqb a c) eqn:Hac; [by constructor|].
  destruct (split c s) as [|h t]; [by repeat constructor; simpl; rewrite Hac|].
  apply Forall_cons in IH as [Hh Ht]. constructor; [|done].
  simpl. by rewrite Hac.
Qed.

Lemma getitem_neg2_elem_of (l : list string) (x : string) :
  getitem_neg2 l = inr x -> x ∈ l.
Proof.
  induction l as [|a l IH]; [done|].
  destruct l as [|b l]; [done|]. destruct l as [|b' l].
  - intros [= <-]. left.
  - intros Hx. right. by apply IH.
Qed.

(** X10.  The cleaned name never raises and never holds a ['/']; cleaning it
    again changes nothing.  An identifier with a single ['/'] is cleaned to
    the part before it, not to the part after it. *)
Theorem clean_stack_name_no_separator (stack_name : string) :
  match clean_stack_name stack_name with
  | inr clean => contains "/" clean = false ∧ clean_stack_name clean = inr clean
  | inl _ => False
  end
  ∧ ∀ before after_it : string,
      contains "/" before = false -> contains "/" after_it = false ->
      clean_stack_name (before +:+ "/" +:+ after_it) = inr before.
Proof.
  split.
  - destruct (clean_stack_name_total stack_name) as [clean Hclean]. rewrite Hclean.
    assert (contains "/" clean = false) as Hno.
    { unfold clean_stack_name in Hclean.
      destruct (contains "/" stack_name) eqn:Hc; [|congruence].
      apply getitem_neg2_elem_of in Hclean.
      pose proof (split_no_sep_inside "/" stack_name) as Hall.
      rewrite Forall_forall in Hall. by apply Hall. }
    split; [done|]. unfold clean_stack_name. by rewrite Hno.
  - intros before after_it Hb Ha. unfold clean_stack_name.
    change (before +:+ "/" +:+ after_it) with (before +:+ String "/" after_it).
    rewrite contains_app_sep, split_app_sep.
    by rewrite (split_no_sep _ _ Hb), (split_no_sep _ _ Ha).
Qed.

Lemma clean_stack_name_no_separator_witness :
  clean_stack_name ("stack" +:+ "/" +:+ "DynamoDB") = inr "stack".
Proof.
  apply (proj2 (clean_stack_name_no_separator "DynamoDB")); reflexivity.
Defined.

Section Traces.
Context {World : Type} `{Provider World} `{Text}.
Variable CONFIG : Config.

Lemma detects_app (t1 t2 : list event) : detects (t1 ++ t2) = detects t1 ++ detects t2.
Proof. apply omap_app. Qed.

Lemma sleeps_app (t1 t2 : list event) : sleeps (t1 ++ t2) = sleeps t1 ++ sleeps t2.
Proof. apply omap_app. Qed.

Lemma paginates_app (t1 t2 : list event) :
  paginates (t1 ++ t2) = paginates t1 ++ paginates t2.
Proof. apply omap_app. Qed.

Lemma paginator_requests_app (t1 t2 : list event) :
  paginator_requests (t1 ++ t2) = paginator_requests t1 ++ paginator_requests t2.
Proof. apply omap_app. Qed.

(** The polling loop never asks for a paginator. *)
Lemma poll_loop_no_paginator (stack_name drift_detection_id : string) (n : nat)
    (w : World) :
  paginator_requests (poll_loop stack_name drift_detection_id n w).1.2 = [].
Proof.
  revert w. induction n as [|n IH]; intros w; [done|].
  rewrite poll_loop_S.
  destruct (describe_stack_drift_detection_status drift_detection_id w)
    as [w1 [e|r]]; [done|].
  destruct (String.eqb (DetectionStatus r) "DETECTION_COMPLETE").
  - by destruct (StackDriftStatus r).
  - destruct (String.eqb (DetectionStatus r) "DETECTION_FAILED"); [done|].
    specialize (IH w1).
    destruct (poll_loop stack_name drift_detection_id n w1) as [[w2 t2] r2].
    cbn [after fst snd] in *. by rewrite paginator_requests_app, IH.
Qed.

(** A terminal answer within the budget ends the loop by [break] or by an
    exception, never by running out of attempts. *)
Lemma poll_loop_until_not_else (stack_name drift_detection_id : string) (n : nat)
    (w w' : World) (r : status_resp) :
  polls_until drift_detection_id n w r w' ->
  (poll_loop stack_name drift_detection_id n w).2 ≠ inr LoopElse.
Proof.
  intros Hpolls.
  induction Hpolls as [n w w' r Hdescribe Hr|n w w1 r1 r w' Hdescribe Hr1 _ IH];
    rewrite poll_loop_S, Hdescribe.
  - unfold terminal in Hr.
    destruct (String.eqb (DetectionStatus r) "DETECTION_COMPLETE").
    + by destruct (StackDriftStatus r).
    + by destruct (String.eqb (DetectionStatus r) "DETECTION_FAILED").
  - apply terminal_false in Hr1 as [-> ->].
    by destruct (poll_loop stack_name drift_detection_id n w1) as [[w2 t2] r2].
Qed.

(** What the polling loop leaves in the trace: no detection request, no
    paginator call, sleeps of two seconds only, one after every poll but the
    one that ends the loop by [break] or by an exception. *)
Lemma poll_loop_shape (stack_name drift_detection_id : string) (n : nat) (w : World) :
  detects (poll_loop stack_name drift_detection_id n w).1.2 = []
  ∧ paginates (poll_loop stack_name drift_detection_id n w).1.2 = []
  ∧ Forall (eq 2) (sleeps (poll_loop stack_name drift_detection_id n w).1.2)
  ∧ match (poll_loop stack_name drift_detection_id n w).2 with
    | inr LoopElse =>
        length (sleeps (poll_loop stack_name drift_detection_id n w).1.2) = n
        ∧ polls (poll_loop stack_name drift_detection_id n w).1.2 = n
    | _ =>
        S (length (sleeps (poll_loop stack_name drift_detection_id n w).1.2))
        = polls (poll_loop stack_name drift_detection_id n w).1.2
    end.
Proof.
  revert w. induction n as [|n IH]; intros w; [cbn; by repeat split|].
  rewrite poll_loop_S.
  destruct (describe_stack_drift_detection_status drift_detection_id w)
    as [w1 [e|r]]; [cbn; by repeat split|].
  destruct (String.eqb (DetectionStatus r) "DETECTION_COMPLETE").
  - destruct (StackDriftStatus r); cbn; by repeat split.
  - destruct (String.eqb (DetectionStatus r) "DETECTION_FAILED");
      [cbn; by repeat split|].
    specialize (IH w1).
    destruct (poll_loop stack_name drift_detection_id n w1) as [[w2 t2] r2].
    cbn [after fst snd] in *. destruct IH as (IH1 & IH2 & IH3 & IH4).
    change ([Poll drift_detection_id; Sleep 2] ++ t2)
      with (Poll drift_detection_id :: Sleep 2 :: t2).
    unfold detects, paginates, sleeps, polls in *. cbn.
    rewrite IH1, IH2. repeat split; [by constructor|].
    destruct r2 as [e|[ds sds|]]; cbn in *; lia.
Qed.

(** The loop ends by [break] only on a terminal answer of the provider. *)
Lemma poll_loop_break_inv (stack_name drift_detection_id : string) (n : nat)
    (w w' : World) (t : list event) (detection_status : string)
    (stack_drift_status : option string) :
  poll_loop stack_name drift_detection_id n w
  = (w', t, inr (LoopBreak detection_status stack_drift_status)) ->
  ∃ r,
    polls_until drift_detection_id n w r w'
    ∧ DetectionStatus r = detection_status
    ∧ (detection_status = "DETECTION_COMPLETE"
       ∧ stack_drift_status = StackDriftStatus r ∧ is_Some stack_drift_status
       ∨ detection_status = "DETECTION_FAILED" ∧ stack_drift_status = None).
Proof.
  revert w t. induction n as [|n IH]; intros w t; [done|].
  rewrite poll_loop_S.
  destruct (describe_stack_drift_detection_status drift_detection_id w)
    as [w1 [e|r]] eqn:Hdescribe; [done|].
  destruct (String.eqb (DetectionStatus r) "DETECTION_COMPLETE") eqn:Hc.
  - destruct (StackDriftStatus r) as [verdict|] eqn:Hv; [|done].
    intros [= <- <- <- <-]. exists r. split.
    + apply polls_until_now; [done|]. unfold terminal. by rewrite Hc.
    + split; [done|]. left. apply String.eqb_eq in Hc. rewrite Hv. eauto.
  - destruct (String.eqb (DetectionStatus r) "DETECTION_FAILED") eqn:Hf.
    + intros [= <- <- <- <-]. exists r. split.
      * apply polls_until_now; [done|]. unfold terminal. by rewrite Hc, Hf.
      * split; [done|]. right. by apply String.eqb_eq in Hf.
    + destruct (poll_loop stack_name drift_detection_id n w1) as [[w2 t2] r2] eqn:Hpoll.
      cbn [after]. intros [= <- <- ->].
      destruct (IH _ _ Hpoll) as (r' & Hpolls & Hstatus & Hcases).
      exists r'. split; [|done].
      eapply polls_until_later; [done| |done]. unfold terminal. by rewrite Hc, Hf.
Qed.

(** The loop raises what a poll raises. *)
Lemma poll_loop_raises (stack_name drift_detection_id : string) (n k : nat)
    (w w2 w3 : World) (e : exn) :
  stays_pending drift_detection_id k w w2 ->
  describe_stack_drift_detection_status drift_detection_id w2 = (w3, inl e) ->
  k < n ->
  ∃ t, poll_loop stack_name drift_detection_id n w = (w3, t, inl e)
       ∧ polls t = S k.
Proof.
  intros Hpending Hraise. revert n.
  induction Hpending as [w|k w w1 r w2 Hdescribe Hr _ IH]; intros n Hk.
  - destruct n as [|n]; [lia|]. rewrite poll_loop_S, Hraise. by eexists.
  - destruct n as [|n]; [lia|]. rewrite poll_loop_S, Hdescribe.
    apply terminal_false in Hr as [-> ->].
    destruct (IH Hraise n ltac:(lia)) as (t & -> & Hpolls).
    cbn [after]. eexists. split; [reflexivity|].
    unfold polls in *. cbn. by rewrite Hpolls.
Qed.

(** The same for a completed answer that lacks the verdict. *)
Lemma poll_loop_key_error (stack_name drift_detection_id : string) (n : nat)
    (w w' : World) (r : status_resp) :
  polls_until drift_detection_id n w r w' ->
  DetectionStatus r = "DETECTION_COMPLETE" ->
  StackDriftStatus r = None ->
  ∃ t, poll_loop stack_name drift_detection_id n w
       = (w', t, inl (Exception KeyError "'StackDriftStatus'")).
Proof.
  intros Hpolls Hstatus Hverdict.
  induction Hpolls as [n w w' r Hdescribe _|n w w1 r1 r w' Hdescribe Hr1 _ IH];
    rewrite poll_loop_S, Hdescribe.
  - rewrite Hstatus, Hverdict. cbn. eauto.
  - apply terminal_false in Hr1 as [-> ->].
    destruct (IH Hstatus Hverdict) as [t ->]. cbn. eauto.
Qed.

(** What follows the polling leaves no detection request and no sleep in the
    trace, and at most one notification. *)
Lemma after_polling_shape (stack_name : string) (p : polled) (w : World) :
  detects (after_polling CONFIG stack_name p w).1.2 = []
  ∧ sleeps (after_polling CONFIG stack_name p w).1.2 = []
  ∧ length (publishes (after_polling CONFIG stack_name p w).1.2) <= 1.
Proof.
  destruct p as [detection_status stack_drift_status|]; [|cbn; repeat split; lia].
  unfold after_polling, fetch_drift_details, bind, lift, call, logger, emit, ret.
  destruct (negb (String.eqb detection_status "DETECTION_COMPLETE"));
    [cbn; repeat split; lia|].
  destruct (bool_decide (stack_drift_status = Some "DRIFTED")).
  - destruct (get_paginator "describe_stack_resource_drifts" w) as [w0 [e|u0]];
      [cbn; repeat split; lia|].
    destruct (paginate stack_name ["MODIFIED"; "DELETED"] w0) as [w1 [pages [e|]]];
      [cbn; repeat split; lia|].
    destruct (clean_stack_name stack_name); [cbn; repeat split; lia|]. cbn.
    destruct (publish _ _ _ w1) as [w2 [e|u]]; cbn; repeat split; lia.
  - destruct (clean_stack_name stack_name); cbn; repeat split; lia.
Qed.

(** The body of the [try] when the polling loop raises. *)
Lemma stack_body_poll_raises (stack_name : string) (w w1 w2 : World)
    (detect_resp : detect_resp) (t : list event) (e : exn) :
  detect_stack_drift stack_name w = (w1, inr detect_resp) ->
  poll_loop stack_name (StackDriftDetectionId detect_resp) max_retries w1
  = (w2, t, inl e) ->
  stack_body CONFIG stack_name w
  = (w2,
     [Log INFO ("--- Processing stack: " +:+ stack_name +:+ " ---");
      Detect stack_name;
      Log INFO ("Drift detection initiated. ID: "
                +:+ StackDriftDetectionId detect_resp)] ++ t,
     inl e).
Proof.
  intros Hdetect Hpoll. rewrite stack_body_eq, Hdetect.
  by rewrite (bind_run_raise _ _ _ _ _ _ Hpoll).
Qed.

(** What one turn of the loop over the stacks leaves in the trace. *)
Lemma process_stack_shape (stack_name : string) (w : World) :
  detects (process_stack CONFIG stack_name w).1.2 = [stack_name]
  ∧ Forall (eq 2) (sleeps (process_stack CONFIG stack_name w).1.2)
  ∧ length (publishes (process_stack CONFIG stack_name w).1.2) <= 1
  ∧ (length (sleeps (process_stack CONFIG stack_name w).1.2)
     = polls (process_stack CONFIG stack_name w).1.2
     ∧ (polls (process_stack CONFIG stack_name w).1.2 = 0
        ∨ polls (process_stack CONFIG stack_name w).1.2 = max_retries)
     ∨ S (length (sleeps (process_stack CONFIG stack_name w).1.2))
       = polls (process_stack CONFIG stack_name w).1.2).
Proof.
  destruct (detect_stack_drift stack_name w) as [w1 [e|detect_resp]] eqn:Hdetect.
  - assert (stack_body CONFIG stack_name w
            = (w1,
               [Log INFO ("--- Processing stack: " +:+ stack_name +:+ " ---");
                Detect stack_name], inl e)) as Hbody
      by (by rewrite stack_body_eq, Hdetect).
    rewrite (process_stack_catches _ _ _ _ _ _ Hbody). cbn.
    repeat split; auto.
  - pose proof (poll_loop_shape stack_name (StackDriftDetectionId detect_resp)
                  max_retries w1) as (Hd & _ & Hs & Hcount).
    pose proof (poll_loop_trace stack_name (StackDriftDetectionId detect_resp)
                  max_retries w1) as [Hquiet _].
    destruct (poll_loop stack_name (StackDriftDetectionId detect_resp) max_retries w1)
      as [[w2 tp] [e|p]] eqn:Hpoll; cbn [fst snd] in Hd, Hs, Hcount, Hquiet.
    + rewrite (process_stack_catches _ _ _ _ _ _
                 (stack_body_poll_raises _ _ _ _ _ _ _ Hdetect Hpoll)).
      cbn [fst snd].
      rewrite !detects_app, !sleeps_app, !publishes_app, !polls_app, Hd, Hquiet.
      cbn. rewrite !app_nil_r. repeat split; auto. right. lia.
    + pose proof (stack_body_polled CONFIG _ _ _ _ _ _ _ Hdetect Hpoll) as Hbody.
      pose proof (after_polling_shape stack_name p w2) as (Hd3 & Hs3 & Hp3).
      pose proof (after_polling_no_poll CONFIG stack_name p w2) as Hn3.
      destruct (after_polling CONFIG stack_name p w2) as [[w3 t3] r3].
      cbn [after fst snd] in *.
      assert (length (sleeps tp) = polls tp ∧ (polls tp = 0 ∨ polls tp = max_retries)
              ∨ S (length (sleeps tp)) = polls tp) as Hcases.
      { destruct p as [ds sds|]; [by right|]. left. destruct Hcount as [-> ->]. auto. }
      destruct r3 as [e|entry].
      * rewrite (process_stack_catches _ _ _ _ _ _ Hbody). cbn [fst snd].
        rewrite !detects_app, !sleeps_app, !publishes_app, !polls_app.
        rewrite Hd, Hd3, Hs3, Hquiet, Hn3. cbn. rewrite !app_nil_r.
        repeat split; auto; lia.
      * rewrite (process_stack_returns _ _ _ _ _ _ Hbody). cbn [fst snd].
        rewrite !detects_app, !sleeps_app, !publishes_app, !polls_app.
        rewrite Hd, Hd3, Hs3, Hquiet, Hn3. cbn. rewrite !app_nil_r.
        repeat split; auto; lia.
Qed.

(** What the loop over the stacks leaves in the trace and in the results. *)
Lemma stack_loop_shape (stack_names results : list string) (w : World) :
  ∃ w' t more,
    stack_loop CONFIG stack_names results w = (w', t, inr (results ++ more))
    ∧ detects t = stack_names
    ∧ length more <= length stack_names
    ∧ length (publishes t) <= length stack_names
    ∧ polls t <= max_retries * length stack_names
    ∧ Forall (eq 2) (sleeps t)
    ∧ length (sleeps t) <= max_retries * length stack_names.
Proof.
  revert results w.
  induction stack_names as [|stack_name rest IH]; intros results w.
  - exists w, [], []. cbn. rewrite app_nil_r. repeat split; auto; lia.
  - pose proof (process_stack_shape stack_name w) as (Hd & Hs & Hp & Hcases).
    pose proof (process_stack_polls CONFIG stack_name w) as Hpolls.
    destruct (process_stack_total CONFIG stack_name w) as (w1 & t & entry & Hstack).
    rewrite Hstack in Hd, Hs, Hp, Hcases, Hpolls. cbn [fst snd] in *.
    rewrite (stack_loop_cons _ _ _ _ _ _ _ _ Hstack).
    destruct (IH (match entry with
                  | Some line => results ++ [line]
                  | None => results
                  end) w1)
      as (w' & t' & more & -> & Hd' & Hm' & Hp' & Hn' & Hs' & Hl').
    exists w', (t ++ t'),
      (match entry with Some line => line :: more | None => more end).
    cbn [after length].
    rewrite detects_app, sleeps_app, publishes_app, polls_app, !length_app, Hd, Hd'.
    split; [by destruct entry; rewrite <- ?app_assoc|].
    split; [done|].
    split; [destruct entry; cbn; lia|].
    split; [lia|]. split; [lia|].
    split; [by apply Forall_app|]. lia.
Qed.

Lemma sum_list_twos (l : list nat) : Forall (eq 2) l -> sum_list l = 2 * length l.
Proof. induction 1 as [|x l <- _ IH]; cbn; lia. Qed.

(** How a run of the handler goes: an exception of one of the two client
    constructions leaves it, and otherwise it returns what the loop over the
    stacks has collected. *)
Lemma lambda_handler_cases {E C : Type} (event : E) (context : C) (w : World) :
  (∃ w' t e,
      lambda_handler CONFIG event context w = (w', t, inl e)
      ∧ (t = [Client "cloudformation"] ∨ t = [Client "cloudformation"; Client "sns"]))
  ∨ (∃ w1 w2 w' t results,
        boto3_client "cloudformation" w = (w1, inr tt)
        ∧ boto3_client "sns" w1 = (w2, inr tt)
        ∧ stack_loop CONFIG (STACK_ARNS CONFIG) [] w2 = (w', t, inr results)
        ∧ lambda_handler CONFIG event context w
          = (w', [Client "cloudformation"; Client "sns"] ++ t,
             inr {| statusCode := 200;
                    body := json_dumps ("Process complete. Results: "
                                        +:+ format_list results) |})).
Proof.
  destruct (boto3_client "cloudformation" w) as [w1 [e|[]]] eqn:Hcf.
  { left. exists w1, [Client "cloudformation"], e. split; [|by left].
    unfold lambda_handler, bind, call. by rewrite Hcf. }
  destruct (boto3_client "sns" w1) as [w2 [e|[]]] eqn:Hsns.
  { left. exists w2, [Client "cloudformation"; Client "sns"], e. split; [|by right].
    unfold lambda_handler, bind, call. rewrite Hcf. cbn [after]. by rewrite Hsns. }
  right.
  destruct (stack_loop_total CONFIG (STACK_ARNS CONFIG) [] w2)
    as (w' & t & results & Hloop).
  exists w1, w2, w', t, results. split; [done|]. split; [done|]. split; [done|].
  by apply (lambda_handler_built CONFIG event context _ _ _ _ _ _ Hcf Hsns).
Qed.

(** The polls and the sleeps of one turn of the loop over the stacks are
    those of its polling loop. *)
Lemma process_stack_counts (stack_name : string) (w w1 : World)
    (detect_resp : detect_resp) :
  detect_stack_drift stack_name w = (w1, inr detect_resp) ->
  sleeps (process_stack CONFIG stack_name w).1.2
  = sleeps (poll_loop stack_name (StackDriftDetectionId detect_resp) max_retries w1).1.2
  ∧ polls (process_stack CONFIG stack_name w).1.2
    = polls (poll_loop stack_name (StackDriftDetectionId detect_resp) max_retries w1).1.2.
Proof.
  intros Hdetect.
  destruct (poll_loop stack_name (StackDriftDetectionId detect_resp) max_retries w1)
    as [[w2 tp] [e|p]] eqn:Hpoll.
  - rewrite (process_stack_catches _ _ _ _ _ _
               (stack_body_poll_raises _ _ _ _ _ _ _ Hdetect Hpoll)).
    cbn [fst snd]. rewrite !sleeps_app, !polls_app. cbn.
    rewrite app_nil_r. split; [done|lia].
  - pose proof (stack_body_polled CONFIG _ _ _ _ _ _ _ Hdetect Hpoll) as Hbody.
    pose proof (after_polling_shape stack_name p w2) as (_ & Hs3 & _).
    pose proof (after_polling_no_poll CONFIG stack_name p w2) as Hn3.
    destruct (after_polling CONFIG stack_name p w2) as [[w3 t3] [e|entry]];
      cbn [after fst snd] in *.
    + rewrite (process_stack_catches _ _ _ _ _ _ Hbody). cbn [fst snd].
      rewrite !sleeps_app, !polls_app, Hs3, Hn3. cbn.
      rewrite !app_nil_r. split; [done|lia].
    + rewrite (process_stack_returns _ _ _ _ _ _ Hbody). cbn [fst snd].
      rewrite !sleeps_app, !polls_app, Hs3, Hn3. cbn.
      rewrite !app_nil_r. split; [done|lia].
Qed.

(** X11.  Whatever the provider does, the loop over the stacks requests the
    detection once for every stack it is given, in their order: no failure of
    one stack keeps it from the stacks after it.  A run of the handler that
    returns has requested the detection for the configured stacks, in the
    configured order; a run that an exception leaves has requested none. *)
Theorem every_stack_attempted {E C : Type} (event : E) (context : C)
    (stack_names results : list string) (w : World) :
  detects (stack_loop CONFIG stack_names results w).1.2 = stack_names
  ∧ match (lambda_handler CONFIG event context w).2 with
    | inr _ =>
        detects (lambda_handler CONFIG event context w).1.2 = STACK_ARNS CONFIG
    | inl _ => detects (lambda_handler CONFIG event context w).1.2 = []
    end.
Proof.
  split.
  - destruct (stack_loop_shape stack_names results w)
      as (w' & t & more & Hloop & Hd & _).
    by rewrite Hloop.
  - destruct (lambda_handler_cases event context w)
      as [(w' & t & e & Hrun & [->| ->])
         |(w1 & w2 & w' & t & all & _ & _ & Hloop & Hrun)];
      rewrite Hrun; cbn [fst snd]; [done|done|].
    destruct (stack_loop_shape (STACK_ARNS CONFIG) [] w2)
      as (w'' & t' & more & Hloop' & Hd & _).
    rewrite Hloop in Hloop'. injection Hloop' as _ <- _.
    by rewrite detects_app, Hd.
Qed.

(** X12.  Whatever the provider does, the loop over [n] stacks adds at most
    [n] result entries, publishes at most [n] notifications, polls at most
    [20 * n] times and sleeps at most [40 * n] seconds.  The same bounds hold
    of a run of the handler over the configured stacks, and the response of a
    run that returns is rendered from at most that many entries. *)
Theorem run_bounds {E C : Type} (event : E) (context : C)
    (stack_names results : list string) (w : World) :
  (∃ w' t more,
      stack_loop CONFIG stack_names results w = (w', t, inr (results ++ more))
      ∧ length more <= length stack_names
      ∧ length (publishes t) <= length stack_names
      ∧ polls t <= 20 * length stack_names
      ∧ sum_list (sleeps t) <= 40 * length stack_names)
  ∧ length (publishes (lambda_handler CONFIG event context w).1.2)
    <= length (STACK_ARNS CONFIG)
  ∧ polls (lambda_handler CONFIG event context w).1.2
    <= 20 * length (STACK_ARNS CONFIG)
  ∧ sum_list (sleeps (lambda_handler CONFIG event context w).1.2)
    <= 40 * length (STACK_ARNS CONFIG)
  ∧ match (lambda_handler CONFIG event context w).2 with
    | inr r =>
        ∃ all,
          r = {| statusCode := 200;
                 body := json_dumps ("Process complete. Results: "
                                     +:+ format_list all) |}
          ∧ length all <= length (STACK_ARNS CONFIG)
    | inl _ => publishes (lambda_handler CONFIG event context w).1.2 = []
    end.
Proof.
  split.
  { destruct (stack_loop_shape stack_names results w)
      as (w' & t & more & Hloop & _ & Hm & Hp & Hn & Hs & Hl).
    exists w', t, more. unfold max_retries in Hn, Hl.
    rewrite (sum_list_twos _ Hs). repeat split; auto; lia. }
  destruct (lambda_handler_cases event context w)
    as [(w' & t & e & Hrun & [->| ->])
       |(w1 & w2 & w' & t & all & _ & _ & Hloop & Hrun)];
    rewrite Hrun; cbn [fst snd]; [cbn; repeat split; lia..|].
  destruct (stack_loop_shape (STACK_ARNS CONFIG) [] w2)
    as (w'' & t' & more & Hloop' & _ & Hm & Hp & Hn & Hs & Hl).
  rewrite Hloop in Hloop'. injection Hloop' as _ <- ->.
  unfold max_retries in Hn, Hl.
  rewrite publishes_app, polls_app, sleeps_app. cbn [app].
  change (publishes [Client "cloudformation"; Client "sns"]) with (@nil Notifier.event).
  change (polls [Client "cloudformation"; Client "sns"]) with 0.
  change (sleeps [Client "cloudformation"; Client "sns"]) with (@nil nat).
  cbn [app Nat.add]. rewrite (sum_list_twos _ Hs).
  repeat split; [lia..|]. exists more. by split.
Qed.

(** X13.  For one stack, every sleep lasts two seconds and there are at most
    20 polls, and their numbers follow from how the polling ended.  When the
    detection request raises there is no poll and no sleep.  When the polling
    times out there are 20 polls and 20 sleeps.  When a poll is answered with
    a terminal status within the budget, there is one sleep less than there
    are polls: none after the last one.  When a poll raises after [k] polls
    without a terminal answer, there are [k + 1] polls and [k] sleeps. *)
Theorem sleep_accounting (stack_name : string) (w : World) :
  Forall (eq 2) (sleeps (process_stack CONFIG stack_name w).1.2)
  ∧ polls (process_stack CONFIG stack_name w).1.2 <= 20
  ∧ (∀ (w1 : World) (e : exn),
        detect_stack_drift stack_name w = (w1, inl e) ->
        polls (process_stack CONFIG stack_name w).1.2 = 0
        ∧ sleeps (process_stack CONFIG stack_name w).1.2 = [])
  ∧ (∀ w' : World,
        detection_times_out stack_name w w' ->
        polls (process_stack CONFIG stack_name w).1.2 = 20
        ∧ length (sleeps (process_stack CONFIG stack_name w).1.2) = 20)
  ∧ (∀ (w1 w' : World) (detect_resp : detect_resp) (r : status_resp),
        detect_stack_drift stack_name w = (w1, inr detect_resp) ->
        polls_until (StackDriftDetectionId detect_resp) max_retries w1 r w' ->
        S (length (sleeps (process_stack CONFIG stack_name w).1.2))
        = polls (process_stack CONFIG stack_name w).1.2)
  ∧ (∀ (k : nat) (w1 w2 w3 : World) (detect_resp : detect_resp) (e : exn),
        detect_stack_drift stack_name w = (w1, inr detect_resp) ->
        stays_pending (StackDriftDetectionId detect_resp) k w1 w2 ->
        describe_stack_drift_detection_status (StackDriftDetectionId detect_resp) w2
        = (w3, inl e) ->
        k < max_retries ->
        polls (process_stack CONFIG stack_name w).1.2 = S k
        ∧ length (sleeps (process_stack CONFIG stack_name w).1.2) = k).
Proof.
  pose proof (process_stack_shape stack_name w) as (_ & Hs & _).
  pose proof (process_stack_polls CONFIG stack_name w) as Hpolls.
  split; [done|]. split; [done|]. split; [|split; [|split]].
  - intros w1 e Hdetect.
    assert (stack_body CONFIG stack_name w
            = (w1,
               [Log INFO ("--- Processing stack: " +:+ stack_name +:+ " ---");
                Detect stack_name], inl e)) as Hbody
      by (by rewrite stack_body_eq, Hdetect).
    by rewrite (process_stack_catches _ _ _ _ _ _ Hbody).
  - intros w' (w1 & detect_resp & Hdetect & Hpending).
    destruct (process_stack_counts _ _ _ _ Hdetect) as [-> ->].
    destruct (poll_loop_pending stack_name _ _ _ _ Hpending) as (tp & Hpoll & _).
    pose proof (poll_loop_shape stack_name (StackDriftDetectionId detect_resp)
                  max_retries w1) as (_ & _ & _ & Hcount).
    rewrite Hpoll in Hcount |- *. cbn [fst snd] in *.
    destruct Hcount as [-> ->]. done.
  - intros w1 w' detect_resp r Hdetect Huntil.
    destruct (process_stack_counts _ _ _ _ Hdetect) as [-> ->].
    pose proof (poll_loop_until_not_else stack_name _ _ _ _ _ Huntil) as Hbreak.
    pose proof (poll_loop_shape stack_name (StackDriftDetectionId detect_resp)
                  max_retries w1) as (_ & _ & _ & Hcount).
    destruct (poll_loop stack_name (StackDriftDetectionId detect_resp) max_retries w1)
      as [[w2 tp] [e|[ds sds|]]]; cbn [fst snd] in *; done.
  - intros k w1 w2 w3 detect_resp e Hdetect Hpending Hraise Hk.
    destruct (process_stack_counts _ _ _ _ Hdetect) as [-> ->].
    destruct (poll_loop_raises stack_name _ _ _ _ _ _ _ Hpending Hraise Hk)
      as (tp & Hpoll & Hn).
    pose proof (poll_loop_shape stack_name (StackDriftDetectionId detect_resp)
                  max_retries w1) as (_ & _ & _ & Hcount).
    rewrite Hpoll in Hcount |- *. cbn [fst snd] in *. lia.
Qed.

(** X14.  A notification is published for a stack only when its detection
    completed with the verdict DRIFTED, the client gave the paginator of the
    drift records and the paging ended without an exception; it is then the
    only one for that stack, it goes to the configured topic, and it is made
    of the records of the pages the provider yielded. *)
Theorem publish_only_when_drifted (stack_name : string) (w : World) :
  publishes (process_stack CONFIG stack_name w).1.2 = []
  ∨ ∃ w2 w2' w3 pages clean,
      detection_completes stack_name w "DRIFTED" w2
      ∧ get_paginator "describe_stack_resource_drifts" w2 = (w2', inr tt)
      ∧ paginate stack_name ["MODIFIED"; "DELETED"] w2' = (w3, (pages, None))
      ∧ clean_stack_name stack_name = inr clean
      ∧ publishes (process_stack CONFIG stack_name w).1.2
        = [Publish (SNS_TOPIC_ARN CONFIG)
             (message_body clean "DRIFTED" (drift_detail <$> records pages))
             ("Drift Report: " +:+ clean +:+ " [DRIFTED]")].
Proof.
  destruct (detect_stack_drift stack_name w) as [w1 [e|detect_resp]] eqn:Hdetect.
  { left.
    assert (stack_body CONFIG stack_name w
            = (w1,
               [Log INFO ("--- Processing stack: " +:+ stack_name +:+ " ---");
                Detect stack_name], inl e)) as Hbody
      by (by rewrite stack_body_eq, Hdetect).
    by rewrite (process_stack_catches _ _ _ _ _ _ Hbody). }
  pose proof (poll_loop_trace stack_name (StackDriftDetectionId detect_resp)
                max_retries w1) as [Hquiet _].
  destruct (poll_loop stack_name (StackDriftDetectionId detect_resp) max_retries w1)
    as [[w2 tp] [e|p]] eqn:Hpoll; cbn [fst snd] in Hquiet.
  { left.
    rewrite (process_stack_catches _ _ _ _ _ _
               (stack_body_poll_raises _ _ _ _ _ _ _ Hdetect Hpoll)).
    cbn [fst snd]. by rewrite !publishes_app, Hquiet. }
  pose proof (stack_body_polled CONFIG _ _ _ _ _ _ _ Hdetect Hpoll) as Hbody.
  destruct p as [detection_status stack_drift_status|].
  2:{ left. rewrite after_polling_else in Hbody. cbn [after] in Hbody.
      rewrite (process_stack_returns _ _ _ _ _ _ Hbody). cbn [fst snd].
      by rewrite !publishes_app, Hquiet. }
  destruct (poll_loop_break_inv _ _ _ _ _ _ _ _ Hpoll)
    as (r & Hpolls & Hstatus & [(-> & Hsds & [verdict ->])|[-> ->]]).
  2:{ left. rewrite after_polling_failed in Hbody. cbn [after] in Hbody.
      rewrite (process_stack_returns _ _ _ _ _ _ Hbody). cbn [fst snd].
      by rewrite !publishes_app, Hquiet, !app_nil_r. }
  destruct (decide (verdict = "DRIFTED")) as [->|Hverdict].
  2:{ left.
      destruct (after_polling_not_drifted CONFIG stack_name verdict w2 Hverdict)
        as (clean & _ & Hafter).
      rewrite Hafter in Hbody. cbn [after] in Hbody.
      rewrite (process_stack_returns _ _ _ _ _ _ Hbody). cbn [fst snd].
      by rewrite !publishes_app, Hquiet. }
  destruct (after_polling_drifted CONFIG stack_name w2) as (clean & Hclean & Hafter).
  rewrite Hafter in Hbody.
  destruct (get_paginator "describe_stack_resource_drifts" w2)
    as [w2' [e|[]]] eqn:Hget.
  { left. cbn [after] in Hbody.
    rewrite (process_stack_catches _ _ _ _ _ _ Hbody). cbn [fst snd].
    by rewrite !publishes_app, Hquiet. }
  destruct (paginate stack_name ["MODIFIED"; "DELETED"] w2')
    as [w3 [pages [e|]]] eqn:Hpaginate.
  { left. cbn [after] in Hbody.
    rewrite (process_stack_catches _ _ _ _ _ _ Hbody). cbn [fst snd].
    by rewrite !publishes_app, Hquiet. }
  right. exists w2, w2', w3, pages, clean.
  split; [by exists w1, detect_resp, r|]. split; [done|]. split; [done|].
  split; [done|].
  rewrite page_loop_records, app_nil_l in Hbody. cbn zeta in Hbody.
  destruct (publish _ _ _ w3) as [w4 [e|u]]; cbn [after] in Hbody.
  - rewrite (process_stack_catches _ _ _ _ _ _ Hbody). cbn [fst snd].
    by rewrite !publishes_app, Hquiet.
  - rewrite (process_stack_returns _ _ _ _ _ _ Hbody). cbn [fst snd].
    by rewrite !publishes_app, Hquiet.
Qed.

(** The last thing the loop does on a failed detection is to log it. *)
Lemma poll_loop_fails_log (stack_name drift_detection_id : string) (n : nat)
    (w w' : World) (r : status_resp) :
  polls_until drift_detection_id n w r w' ->
  DetectionStatus r = "DETECTION_FAILED" ->
  ∃ t, poll_loop stack_name drift_detection_id n w
       = (w',
          t ++ [Log ERROR ("Detection failed for stack " +:+ stack_name +:+ ": "
                           +:+ str_opt (DetectionStatusReason r))],
          inr (LoopBreak "DETECTION_FAILED" None)).
Proof.
  intros Hpolls Hstatus.
  induction Hpolls as [n w w' r Hdescribe _|n w w1 r1 r w' Hdescribe Hr1 _ IH];
    rewrite poll_loop_S, Hdescribe.
  - rewrite Hstatus. cbn. by exists [Poll drift_detection_id].
  - apply terminal_false in Hr1 as [-> ->].
    destruct (IH Hstatus) as [t ->]. cbn [after].
    exists ([Poll drift_detection_id; Sleep 2] ++ t). by rewrite <- app_assoc.
Qed.

(** X15.  For a stack whose detection completes with any verdict other than
    DRIFTED, no paginator is asked for or called and nothing is published; the stack
    is logged as IN_SYNC whatever the verdict says, and its result entry
    carries the verdict itself. *)
Theorem not_drifted_not_fetched (stack_name verdict : string) (w w' : World) :
  verdict ≠ "DRIFTED" ->
  detection_completes stack_name w verdict w' ->
  ∃ clean t,
    clean_stack_name stack_name = inr clean
    ∧ process_stack CONFIG stack_name w
      = (w',
         t ++ [Log INFO ("Stack " +:+ clean +:+ " is IN_SYNC. No notification sent.")],
         inr (Some (clean +:+ ": " +:+ verdict)))
    ∧ paginator_requests t = []
    ∧ paginates t = []
    ∧ publishes t = [].
Proof.
  intros Hverdict (w1 & detect_resp & r & Hdetect & Hpolls & Hstatus & Hv).
  destruct (poll_loop_completes stack_name _ _ _ _ _ _ Hpolls Hstatus Hv)
    as [tp Hpoll].
  pose proof (poll_loop_shape stack_name (StackDriftDetectionId detect_resp)
                max_retries w1) as (_ & Hpag & _).
  pose proof (poll_loop_no_paginator stack_name (StackDriftDetectionId detect_resp)
                max_retries w1) as Hreq.
  pose proof (poll_loop_trace stack_name (StackDriftDetectionId detect_resp)
                max_retries w1) as [Hquiet _].
  rewrite Hpoll in Hpag, Hreq, Hquiet. cbn [fst snd] in Hpag, Hreq, Hquiet.
  pose proof (stack_body_polled CONFIG _ _ _ _ _ _ _ Hdetect Hpoll) as Hbody.
  destruct (after_polling_not_drifted CONFIG stack_name verdict w' Hverdict)
    as (clean & Hclean & Hafter).
  rewrite Hafter in Hbody. cbn [after] in Hbody.
  exists clean. eexists. split; [done|].
  split; [exact (process_stack_returns _ _ _ _ _ _ Hbody)|].
  by rewrite paginator_requests_app, paginates_app, publishes_app, Hreq, Hpag, Hquiet.
Qed.

(** X16.  For a stack whose detection fails, the failure is logged with the
    reason the provider gives ([None] when it gives none), no paginator is
    asked for or called, nothing is published and no result entry is added. *)
Theorem failed_detection_logged (stack_name : string) (w w1 w' : World)
    (detect_resp : detect_resp) (r : status_resp) :
  detect_stack_drift stack_name w = (w1, inr detect_resp) ->
  polls_until (StackDriftDetectionId detect_resp) max_retries w1 r w' ->
  DetectionStatus r = "DETECTION_FAILED" ->
  ∃ t,
    process_stack CONFIG stack_name w
    = (w',
       t ++ [Log ERROR ("Detection failed for stack " +:+ stack_name +:+ ": "
                        +:+ str_opt (DetectionStatusReason r))],
       inr None)
    ∧ paginator_requests t = []
    ∧ paginates t = []
    ∧ publishes t = [].
Proof.
  intros Hdetect Hpolls Hstatus.
  destruct (poll_loop_fails_log stack_name _ _ _ _ _ Hpolls Hstatus) as [tp Hpoll].
  pose proof (poll_loop_shape stack_name (StackDriftDetectionId detect_resp)
                max_retries w1) as (_ & Hpag & _).
  pose proof (poll_loop_no_paginator stack_name (StackDriftDetectionId detect_resp)
                max_retries w1) as Hreq.
  pose proof (poll_loop_trace stack_name (StackDriftDetectionId detect_resp)
                max_retries w1) as [Hquiet _].
  rewrite Hpoll in Hpag, Hreq, Hquiet. cbn [fst snd] in Hpag, Hreq, Hquiet.
  rewrite paginates_app in Hpag. rewrite publishes_app in Hquiet.
  rewrite paginator_requests_app in Hreq.
  apply app_eq_nil in Hpag as [Hpag _]. apply app_eq_nil in Hquiet as [Hquiet _].
  apply app_eq_nil in Hreq as [Hreq _].
  pose proof (stack_body_polled CONFIG _ _ _ _ _ _ _ Hdetect Hpoll) as Hbody.
  rewrite after_polling_failed in Hbody. cbn [after] in Hbody.
  rewrite app_nil_r, app_assoc in Hbody.
  eexists. split; [exact (process_stack_returns _ _ _ _ _ _ Hbody)|].
  by rewrite paginator_requests_app, paginates_app, publishes_app, Hreq, Hpag, Hquiet.
Qed.

(** X17.  When the detection request itself raises, the stack is not polled:
    the error is logged with the stack identifier and the text of the
    exception, no result entry is added, and the loop goes on with the next
    stack. *)
Theorem detect_error_skips_stack (stack_name : string) (w w1 : World) (e : exn) :
  detect_stack_drift stack_name w = (w1, inl e) ->
  process_stack CONFIG stack_name w
  = (w1,
     [Log INFO ("--- Processing stack: " +:+ stack_name +:+ " ---");
      Detect stack_name;
      Log ERROR ("Error processing stack " +:+ stack_name +:+ ": " +:+ exn_str e)],
     inr None)
  ∧ ∀ rest results : list string,
      stack_loop CONFIG (stack_name :: rest) results w
      = after
          [Log INFO ("--- Processing stack: " +:+ stack_name +:+ " ---");
           Detect stack_name;
           Log ERROR ("Error processing stack " +:+ stack_name +:+ ": "
                      +:+ exn_str e)]
          (stack_loop CONFIG rest results w1).
Proof.
  intros Hdetect.
  assert (stack_body CONFIG stack_name w
          = (w1,
             [Log INFO ("--- Processing stack: " +:+ stack_name +:+ " ---");
              Detect stack_name], inl e)) as Hbody
    by (by rewrite stack_body_eq, Hdetect).
  pose proof (process_stack_catches _ _ _ _ _ _ Hbody) as Hstack.
  split; [exact Hstack|].
  intros rest results. by rewrite (stack_loop_cons _ _ _ _ _ _ _ _ Hstack).
Qed.

(** X18.  When a poll raises after some polls without a terminal answer, the
    polling stops at once: the error is logged, nothing is published and no
    result entry is added. *)
Theorem poll_error_skips_stack (stack_name : string) (k : nat) (w w1 w2 w3 : World)
    (detect_resp : detect_resp) (e : exn) :
  detect_stack_drift stack_name w = (w1, inr detect_resp) ->
  stays_pending (StackDriftDetectionId detect_resp) k w1 w2 ->
  describe_stack_drift_detection_status (StackDriftDetectionId detect_resp) w2
  = (w3, inl e) ->
  k < max_retries ->
  ∃ t,
    process_stack CONFIG stack_name w
    = (w3,
       t ++ [Log ERROR ("Error processing stack " +:+ stack_name +:+ ": "
                        +:+ exn_str e)],
       inr None)
    ∧ polls t = S k
    ∧ publishes t = [].
Proof.
  intros Hdetect Hpending Hraise Hk.
  destruct (poll_loop_raises stack_name _ _ _ _ _ _ _ Hpending Hraise Hk)
    as (tp & Hpoll & Hpolls).
  pose proof (poll_loop_trace stack_name (StackDriftDetectionId detect_resp)
                max_retries w1) as [Hquiet _].
  rewrite Hpoll in Hquiet. cbn [fst snd] in Hquiet.
  eexists. split.
  - exact (process_stack_catches _ _ _ _ _ _
             (stack_body_poll_raises _ _ _ _ _ _ _ Hdetect Hpoll)).
  - by rewrite polls_app, publishes_app, Hpolls, Hquiet.
Qed.

(** X19.  When the provider says the detection is complete but its answer
    lacks the key [StackDriftStatus], reading the key raises: the error is
    logged as ['StackDriftStatus'], no paginator is asked for, nothing is
    fetched or published and no result entry is added. *)
Theorem missing_verdict_key (stack_name : string) (w w1 w' : World)
    (detect_resp : detect_resp) (r : status_resp) :
  detect_stack_drift stack_name w = (w1, inr detect_resp) ->
  polls_until (StackDriftDetectionId detect_resp) max_retries w1 r w' ->
  DetectionStatus r = "DETECTION_COMPLETE" ->
  StackDriftStatus r = None ->
  ∃ t,
    process_stack CONFIG stack_name w
    = (w',
       t ++ [Log ERROR ("Error processing stack " +:+ stack_name
                        +:+ ": 'StackDriftStatus'")],
       inr None)
    ∧ paginator_requests t = []
    ∧ paginates t = []
    ∧ publishes t = [].
Proof.
  intros Hdetect Hpolls Hstatus Hv.
  destruct (poll_loop_key_error stack_name _ _ _ _ _ Hpolls Hstatus Hv) as [tp Hpoll].
  pose proof (poll_loop_shape stack_name (StackDriftDetectionId detect_resp)
                max_retries w1) as (_ & Hpag & _).
  pose proof (poll_loop_no_paginator stack_name (StackDriftDetectionId detect_resp)
                max_retries w1) as Hreq.
  pose proof (poll_loop_trace stack_name (StackDriftDetectionId detect_resp)
                max_retries w1) as [Hquiet _].
  rewrite Hpoll in Hpag, Hreq, Hquiet. cbn [fst snd] in Hpag, Hreq, Hquiet.
  eexists. split.
  - exact (process_stack_catches _ _ _ _ _ _
             (stack_body_poll_raises _ _ _ _ _ _ _ Hdetect Hpoll)).
  - by rewrite paginator_requests_app, paginates_app, publishes_app, Hreq, Hpag, Hquiet.
Qed.

(** A drifted stack on a client that has no paginator for the drift
    records. *)
Lemma process_stack_not_pageable (stack_name : string) (w w2 w3 : World) (e : exn) :
  detection_completes stack_name w "DRIFTED" w2 ->
  get_paginator "describe_stack_resource_drifts" w2 = (w3, inl e) ->
  ∃ t,
    process_stack CONFIG stack_name w
    = (w3,
       t ++ [GetPaginator "describe_stack_resource_drifts";
             Log ERROR ("Error processing stack " +:+ stack_name +:+ ": "
                        +:+ exn_str e)],
       inr None)
    ∧ paginates t = []
    ∧ publishes t = [].
Proof.
  intros (w1 & detect_resp & r & Hdetect & Hpolls & Hstatus & Hv) Hget.
  destruct (poll_loop_completes stack_name _ _ _ _ _ _ Hpolls Hstatus Hv)
    as [tp Hpoll].
  pose proof (poll_loop_shape stack_name (StackDriftDetectionId detect_resp)
                max_retries w1) as (_ & Hpag & _).
  pose proof (poll_loop_trace stack_name (StackDriftDetectionId detect_resp)
                max_retries w1) as [Hquiet _].
  rewrite Hpoll in Hpag, Hquiet. cbn [fst snd] in Hpag, Hquiet.
  pose proof (stack_body_polled CONFIG _ _ _ _ _ _ _ Hdetect Hpoll) as Hbody.
  destruct (after_polling_drifted CONFIG stack_name w2) as (clean & _ & Hafter).
  rewrite Hafter, Hget in Hbody. cbn [after] in Hbody.
  eexists. split.
  - rewrite (process_stack_catches _ _ _ _ _ _ Hbody). by rewrite <- app_assoc.
  - by rewrite paginates_app, publishes_app, Hpag, Hquiet.
Qed.

(** C1, where the code departs from it.  On a client that, like the one of
    botocore, has no paginator for [describe_stack_resource_drifts], the
    request for the paginator raises inside the [try] of a stack whose
    detection completes with the verdict DRIFTED.  The error is logged, the
    drift records are never asked for, no notification is published, the
    stack gets no result entry, and the loop goes on with the next stack: no
    drifted resource is reported at all. *)
Theorem drifted_never_notified (stack_name : string) (w w2 w3 : World) (e : exn) :
  detection_completes stack_name w "DRIFTED" w2 ->
  get_paginator "describe_stack_resource_drifts" w2 = (w3, inl e) ->
  ∃ t,
    process_stack CONFIG stack_name w
    = (w3,
       t ++ [GetPaginator "describe_stack_resource_drifts";
             Log ERROR ("Error processing stack " +:+ stack_name +:+ ": "
                        +:+ exn_str e)],
       inr None)
    ∧ paginates t = []
    ∧ publishes t = []
    ∧ ∀ rest results : list string,
        stack_loop CONFIG (stack_name :: rest) results w
        = after
            (t ++ [GetPaginator "describe_stack_resource_drifts";
                   Log ERROR ("Error processing stack " +:+ stack_name +:+ ": "
                              +:+ exn_str e)])
            (stack_loop CONFIG rest results w3).
Proof.
  intros Hcompletes Hget.
  destruct (process_stack_not_pageable _ _ _ _ _ Hcompletes Hget)
    as (t & Hstack & Hpag & Hquiet).
  exists t. split; [exact Hstack|]. split; [exact Hpag|]. split; [exact Hquiet|].
  intros rest results. by rewrite (stack_loop_cons _ _ _ _ _ _ _ _ Hstack).
Qed.


(** C9, as amended.  An exception raised while one of the two clients is
    built leaves the handler, before any stack is looked at.  Once the two
    clients are built, whatever the event and whatever the provider does, the
    handler returns a response with the status code 200 whose body is the
    text rendered from the results of the loop, and the detection has been
    requested for every configured stack.  An exception raised in the body of
    the [try] of a stack is logged with the name of the stack, adds no entry
    to the results, and the loop goes on with the stacks after it. *)
Theorem handler_returns_once_clients_built {E C : Type} (event : E) (context : C)
    (w0 : World) :
  (∀ (w1 : World) (e : exn),
      boto3_client "cloudformation" w0 = (w1, inl e) ->
      lambda_handler CONFIG event context w0 = (w1, [Client "cloudformation"], inl e))
  ∧ (∀ (w1 w2 : World) (e : exn),
        boto3_client "cloudformation" w0 = (w1, inr tt) ->
        boto3_client "sns" w1 = (w2, inl e) ->
        lambda_handler CONFIG event context w0
        = (w2, [Client "cloudformation"; Client "sns"], inl e))
  ∧ (∀ w1 w2 : World,
        boto3_client "cloudformation" w0 = (w1, inr tt) ->
        boto3_client "sns" w1 = (w2, inr tt) ->
        ∃ w' t results,
          stack_loop CONFIG (STACK_ARNS CONFIG) [] w2 = (w', t, inr results)
          ∧ lambda_handler CONFIG event context w0
            = (w', [Client "cloudformation"; Client "sns"] ++ t,
               inr {| statusCode := 200;
                      body := json_dumps ("Process complete. Results: "
                                          +:+ format_list results) |})
          ∧ detects t = STACK_ARNS CONFIG
          ∧ ∀ (pre : list string) (stack_name : string) (post : list string)
              (w wb : World) (t_pre tb : list Notifier.event)
              (results_pre : list string) (e : exn),
              STACK_ARNS CONFIG = pre ++ stack_name :: post ->
              stack_loop CONFIG pre [] w2 = (w, t_pre, inr results_pre) ->
              stack_body CONFIG stack_name w = (wb, tb, inl e) ->
              ∃ t_post,
                stack_loop CONFIG post results_pre wb = (w', t_post, inr results)
                ∧ t = t_pre ++ tb
                      ++ [Log ERROR ("Error processing stack " +:+ stack_name
                                     +:+ ": " +:+ exn_str e)]
                      ++ t_post).
Proof.
  split; [|split].
  - intros w1 e Hcf. unfold lambda_handler, bind, call. by rewrite Hcf.
  - intros w1 w2 e Hcf Hsns. unfold lambda_handler, bind, call.
    rewrite Hcf. cbn [after]. by rewrite Hsns.
  - intros w1 w2 Hcf Hsns.
    destruct (stack_loop_shape (STACK_ARNS CONFIG) [] w2)
      as (w' & t & more & Hloop & Hd & _).
    rewrite app_nil_l in Hloop.
    exists w', t, more. split; [done|].
    split; [by apply (lambda_handler_built CONFIG event context _ _ _ _ _ _ Hcf Hsns)|].
    split; [done|].
    intros pre stack_name post w wb t_pre tb results_pre e Hstacks Hpre Hbody.
    pose proof (process_stack_catches CONFIG _ _ _ _ _ Hbody) as Hstack.
    rewrite Hstacks, (stack_loop_app CONFIG _ _ _ _ _ _ _ Hpre) in Hloop.
    rewrite (stack_loop_cons CONFIG _ _ _ _ _ _ _ Hstack) in Hloop.
    destruct (stack_loop CONFIG post results_pre wb) as [[w_end t_post] r_post].
    cbn [after] in Hloop. injection Hloop as -> <- ->.
    exists t_post. split; [done|]. by rewrite <- !app_assoc.
Qed.


End Traces.

Lemma not_drifted_not_fetched_witness :
  ∃ t,
    process_stack (H := Fake.aws Fake.odd_script None) (H0 := Fake.text)
      (Fake.aws_config ["stack/Odd/1"]) "stack/Odd/1" 0
    = (1, t ++ [Log INFO "Stack Odd is IN_SYNC. No notification sent."],
       inr (Some "Odd: UNKNOWN"))
    ∧ paginator_requests t = []
    ∧ paginates t = []
    ∧ publishes t = [].
Proof.
  destruct (not_drifted_not_fetched (H := Fake.aws Fake.odd_script None)
              (H0 := Fake.text) (Fake.aws_config ["stack/Odd/1"])
              "stack/Odd/1" "UNKNOWN" 0 1 ltac:(discriminate))
    as (clean & t & Hclean & Hstack & Hrest).
  - exists 0, {| StackDriftDetectionId := "stack/Odd/1" |}, (Fake.complete "UNKNOWN").
    split; [reflexivity|]. split; [|split; reflexivity].
    eapply polls_until_now; reflexivity.
  - injection Hclean as <-. exists t. split; [exact Hstack|exact Hrest].
Defined.

Lemma failed_detection_logged_witness :
  ∃ t,
    process_stack (H := Fake.aws Fake.aws_script None) (H0 := Fake.text)
      (Fake.aws_config ["Broken"]) "Broken" 5
    = (1, t ++ [Log ERROR "Detection failed for stack Broken: Internal failure"],
       inr None)
    ∧ paginator_requests t = []
    ∧ paginates t = []
    ∧ publishes t = [].
Proof.
  apply (failed_detection_logged (H := Fake.aws Fake.aws_script None)
           (H0 := Fake.text) (Fake.aws_config ["Broken"]) "Broken" 5 0 1
           {| StackDriftDetectionId := "Broken" |} Fake.failed eq_refl).
  - eapply polls_until_now; reflexivity.
  - reflexivity.
Defined.

Lemma detect_error_skips_stack_witness :
  process_stack (H := Fake.aws Fake.aws_script None) (H0 := Fake.text)
    (Fake.aws_config ["Unknown"]) "Unknown" 0
  = (0,
     [Log INFO "--- Processing stack: Unknown ---";
      Detect "Unknown";
      Log ERROR "Error processing stack Unknown: Stack does not exist"],
     inr None).
Proof.
  apply (proj1 (detect_error_skips_stack (H := Fake.aws Fake.aws_script None)
                  (H0 := Fake.text) (Fake.aws_config ["Unknown"]) "Unknown" 0 0
                  Fake.no_such_stack eq_refl)).
Defined.

Lemma poll_error_skips_stack_witness :
  ∃ t,
    process_stack (H := Fake.aws Fake.odd_script None) (H0 := Fake.text)
      (Fake.aws_config ["Flaky"]) "Flaky" 0
    = (2, t ++ [Log ERROR "Error processing stack Flaky: Rate exceeded"], inr None)
    ∧ polls t = 2
    ∧ publishes t = [].
Proof.
  apply (poll_error_skips_stack (H := Fake.aws Fake.odd_script None)
           (H0 := Fake.text) (Fake.aws_config ["Flaky"]) "Flaky" 1 0 0 1 2
           {| StackDriftDetectionId := "Flaky" |} Fake.throttled eq_refl).
  - eapply stays_pending_S; [reflexivity|reflexivity|apply stays_pending_O].
  - reflexivity.
  - unfold max_retries. lia.
Defined.

Lemma missing_verdict_key_witness :
  ∃ t,
    process_stack (H := Fake.aws Fake.odd_script None) (H0 := Fake.text)
      (Fake.aws_config ["NoVerdict"]) "NoVerdict" 0
    = (2, t ++ [Log ERROR "Error processing stack NoVerdict: 'StackDriftStatus'"],
       inr None)
    ∧ paginator_requests t = []
    ∧ paginates t = []
    ∧ publishes t = [].
Proof.
  apply (missing_verdict_key (H := Fake.aws Fake.odd_script None)
           (H0 := Fake.text) (Fake.aws_config ["NoVerdict"]) "NoVerdict" 0 0 2
           {| StackDriftDetectionId := "NoVerdict" |} Fake.no_verdict eq_refl).
  - eapply polls_until_later; [reflexivity|reflexivity|].
    eapply polls_until_now; reflexivity.
  - reflexivity.
  - reflexivity.
Defined.

(** The drifted stack of the script: its three polls, then the request for
    the paginator, which the client refuses. *)
Lemma drifted_never_notified_witness :
  ∃ t,
    process_stack (H := Fake.aws Fake.aws_script None) (H0 := Fake.text)
      (Fake.aws_config [Fake.dynamo_arn]) Fake.dynamo_arn 0
    = (3,
       t ++ [GetPaginator "describe_stack_resource_drifts";
             Log ERROR ("Error processing stack " +:+ Fake.dynamo_arn +:+ ": "
                        +:+ exn_str Fake.not_pageable)],
       inr None)
    ∧ paginates t = []
    ∧ publishes t = [].
Proof.
  destruct (drifted_never_notified (H := Fake.aws Fake.aws_script None)
              (H0 := Fake.text) (Fake.aws_config [Fake.dynamo_arn]) Fake.dynamo_arn
              0 3 3 Fake.not_pageable (dynamo_completes 0) eq_refl)
    as (t & Hstack & Hpag & Hquiet & _).
  exists t. split; [exact Hstack|]. split; [exact Hpag|exact Hquiet].
Defined.



(** C9, as the specification words it, does not hold: where no region is
    configured, the construction of the first client raises and the
    exception leaves the handler. *)
Lemma client_error_leaves_handler : ¬ handler_always_returns.
Proof.
  intros Hclaim.
  destruct (Hclaim nat Fake.aws_no_region Fake.text (Fake.aws_config ["MyStack"])
              unit unit tt tt 0)
    as (w' & t & r & Hrun & _).
  discriminate Hrun.
Qed.

(** A run over a stack the provider does not know and a stack in sync: the
    first ends in the [except] clause, and the handler returns the entry of
    the second. *)
Lemma handler_returns_once_clients_built_witness :
  ∃ w' t results t_post,
    lambda_handler (H := Fake.aws Fake.aws_script None) (H0 := Fake.text)
      (Fake.aws_config ["Unknown"; "MyStack"]) tt tt 0
    = (w', [Client "cloudformation"; Client "sns"] ++ t,
       inr {| statusCode := 200;
              body := json_dumps (Text := Fake.text)
                        ("Process complete. Results: "
                         +:+ format_list (Text := Fake.text) results) |})
    ∧ detects t = ["Unknown"; "MyStack"]
    ∧ stack_loop (H := Fake.aws Fake.aws_script None) (H0 := Fake.text)
        (Fake.aws_config ["Unknown"; "MyStack"]) ["MyStack"] [] 0
      = (w', t_post, inr results)
    ∧ t = [] ++ [Log INFO "--- Processing stack: Unknown ---"; Detect "Unknown"]
          ++ [Log ERROR ("Error processing stack " +:+ "Unknown" +:+ ": "
                         +:+ exn_str Fake.no_such_stack)]
          ++ t_post.
Proof.
  destruct (proj2 (proj2 (handler_returns_once_clients_built
                            (H := Fake.aws Fake.aws_script None) (H0 := Fake.text)
                            (Fake.aws_config ["Unknown"; "MyStack"]) tt tt 0))
              0 0 eq_refl eq_refl)
    as (w' & t & results & _ & Hrun & Hd & Hcaught).
  destruct (Hcaught [] "Unknown" ["MyStack"] 0 0 []
              [Log INFO "--- Processing stack: Unknown ---"; Detect "Unknown"]
              [] Fake.no_such_stack eq_refl eq_refl eq_refl)
    as (t_post & Hpost & Ht).
  exists w', t, results, t_post.
  split; [exact Hrun|]. split; [exact Hd|]. split; [exact Hpost|exact Ht].
Defined.

(** The numbers of polls and sleeps of four stacks of the scripts: one the
    provider does not know, one that never completes, one in sync after one
    poll in progress, and one whose second poll raises. *)
Lemma sleep_accounting_witness :
  (polls (process_stack (H := Fake.aws Fake.aws_script None) (H0 := Fake.text)
            (Fake.aws_config []) "Unknown" 0).1.2 = 0
   ∧ sleeps (process_stack (H := Fake.aws Fake.aws_script None) (H0 := Fake.text)
               (Fake.aws_config []) "Unknown" 0).1.2 = [])
  ∧ (polls (process_stack (H := Fake.aws Fake.aws_script None) (H0 := Fake.text)
              (Fake.aws_config []) "Slow" 0).1.2 = 20
     ∧ length (sleeps (process_stack (H := Fake.aws Fake.aws_script None)
                         (H0 := Fake.text) (Fake.aws_config []) "Slow" 0).1.2) = 20)
  ∧ S (length (sleeps (process_stack (H := Fake.aws Fake.aws_script None)
                         (H0 := Fake.text) (Fake.aws_config []) "MyStack" 0).1.2))
    = polls (process_stack (H := Fake.aws Fake.aws_script None) (H0 := Fake.text)
               (Fake.aws_config []) "MyStack" 0).1.2
  ∧ (polls (process_stack (H := Fake.aws Fake.odd_script None) (H0 := Fake.text)
              (Fake.aws_config []) "Flaky" 0).1.2 = 2
     ∧ length (sleeps (process_stack (H := Fake.aws Fake.odd_script None)
                         (H0 := Fake.text) (Fake.aws_config []) "Flaky" 0).1.2) = 1).
Proof.
  split; [|split; [|split]].
  - exact (proj1 (proj2 (proj2 (sleep_accounting (H := Fake.aws Fake.aws_script None)
                                  (H0 := Fake.text) (Fake.aws_config []) "Unknown" 0)))
             0 Fake.no_such_stack eq_refl).
  - exact (proj1 (proj2 (proj2 (proj2 (sleep_accounting
                                         (H := Fake.aws Fake.aws_script None)
                                         (H0 := Fake.text) (Fake.aws_config [])
                                         "Slow" 0))))
             20 (Slow_times_out 0)).
  - apply (proj1 (proj2 (proj2 (proj2 (proj2 (sleep_accounting
                                                (H := Fake.aws Fake.aws_script None)
                                                (H0 := Fake.text) (Fake.aws_config [])
                                                "MyStack" 0)))))
             0 2 {| StackDriftDetectionId := "MyStack" |} (Fake.complete "IN_SYNC")
             eq_refl).
    eapply polls_until_later; [reflexivity|reflexivity|].
    eapply polls_until_now; reflexivity.
  - apply (proj2 (proj2 (proj2 (proj2 (proj2 (sleep_accounting
                                                (H := Fake.aws Fake.odd_script None)
                                                (H0 := Fake.text) (Fake.aws_config [])
                                                "Flaky" 0)))))
             1 0 1 2 {| StackDriftDetectionId := "Flaky" |} Fake.throttled eq_refl).
    + eapply stays_pending_S; [reflexivity|reflexivity|apply stays_pending_O].
    + reflexivity.
    + unfold max_retries. lia.
Defined.


End NotifierProofs.
